(** * The Form Recognizer client, embedded

  The TypeScript client starts long-running recognition operations and
  hands them to a poller.  This development embeds the client's own
  functions ([processOperationLocation], [makeSpanner],
  [recognizeLayoutInternal], [getRecognizedContent], the constructor and
  the [beginRecognize*] methods) and proves the properties its
  specification states about them.

  Conventions.
  - A JavaScript string is a sequence of code units; it is embedded as
    [string].  Indices are [Z], because [lastIndexOf] answers [-1].
  - [undefined] is [None].
  - A thrown value is an error object ([JsError]: every [throw] of the
    source throws an [Error] or a [RangeError], and the generated client
    rejects with an error object), or [undefined] or [null], which a
    handler from elsewhere may throw and whose properties cannot be read.
  - Calling an [async] function runs it up to its first [await]; the
    promise it returns stands for the rest.
  - Effects are threaded explicitly: a computation takes the history of
    observable events and returns its outcome with the extended history. *)

From Stdlib Require Import String Ascii ZArith List Bool Lia.
Import ListNotations.
Open Scope string_scope.
Open Scope Z_scope.

(* ===================================================================== *)
(** ** JavaScript strings *)
(* ===================================================================== *)

Module JsString.

(** [s.length] *)
Definition length (s : string) : Z := Z.of_nat (String.length s).

(** Left-to-right scan behind [lastIndexOf]: [i] is the index of the head
    of [s], [acc] the last index found so far. *)
Fixpoint lastIndexOf_from (c : ascii) (s : string) (i acc : Z) : Z :=
  match s with
  | EmptyString => acc
  | String a s' => lastIndexOf_from c s' (i + 1) (if Ascii.eqb a c then i else acc)
  end.

(** [s.lastIndexOf(c)] for a one-unit search string: the index of the
    last occurrence, [-1] when there is none. *)
Definition lastIndexOf (s : string) (c : ascii) : Z :=
  lastIndexOf_from c s 0 (-1).

(** Drops the first [n] code units. *)
Fixpoint drop (n : nat) (s : string) : string :=
  match n, s with
  | O, _ => s
  | S _, EmptyString => EmptyString
  | S n', String _ s' => drop n' s'
  end.

(** [s.substring(start)]: [start] is clamped to [0 .. s.length]. *)
Definition substring (s : string) (start : Z) : string :=
  drop (Z.to_nat (Z.min (Z.max start 0) (length s))) s.

(** The code unit [c] occurs in [s]. *)
Fixpoint contains (c : ascii) (s : string) : bool :=
  match s with
  | EmptyString => false
  | String a s' => Ascii.eqb a c || contains c s'
  end.

End JsString.

(* ===================================================================== *)
(** ** Thrown values *)
(* ===================================================================== *)

(** The constructor the error object was made with. [RestError] stands for
  what the generated client rejects with, [TypeError] is what the engine
  throws when a property of [undefined] or [null] is read. *)
Inductive ErrorClass := Error | RangeError | RestError | TypeError.

(** An error object. *)
Record JsError := mkError { errorClass : ErrorClass; message : string }.

(** What a [throw] can throw: an error object, [undefined] or [null]. *)
Inductive Thrown :=
  | errorObject (e : JsError)
  | thrownUndefined
  | thrownNull.

Coercion errorObject : JsError >-> Thrown.

(** A synchronous outcome: [inl e] is [throw e], [inr v] is [return v]. *)
Definition Outcome (A : Type) : Type := (Thrown + A)%type.

#[global] Arguments inl {A B} & _.
#[global] Arguments pair {A B} & _ _.

(** The outcome of a call that fails with error objects only. *)
Definition rejection {A : Type} (r : JsError + A) : Outcome A :=
  match r with
  | inl e => inl e
  | inr a => inr a
  end.

(** The error of reading [e.message] when [e] is [undefined] or [null];
  the text is the engine's. *)
Definition cannotReadMessage (value : string) : JsError :=
  mkError TypeError ("Cannot read property 'message' of " ++ value).

(* ===================================================================== *)
(** ** [processOperationLocation] *)
(* ===================================================================== *)

(** [interface RemoteOperation { operationLocation?: string }] *)
Record RemoteOperation := { operationLocation : option string }.

(** [!operationLocation]: true for [undefined] and for the empty string. *)
Definition falsy (s : option string) : bool :=
  match s with
  | None => true
  | Some EmptyString => true
  | Some (String _ _) => false
  end.

Definition slash : ascii := "/"%char.

Definition missingOperationLocation : JsError :=
  mkError Error
    "The service did not respond with an 'operationLocation' to retrieve results.".

Definition processOperationLocation (remoteOperation : RemoteOperation) : Outcome string :=
  match operationLocation remoteOperation with
  | None => inl missingOperationLocation
  | Some loc =>
      if falsy (Some loc) then inl missingOperationLocation
      else
        let lastSlashIndex := JsString.lastIndexOf loc slash in
        inr (JsString.substring loc (lastSlashIndex + 1))
  end.

(* ===================================================================== *)
(** ** Observable events and the effect monad *)
(* ===================================================================== *)

(** [FormContentType], as the option's documentation lists it. *)
Inductive FormContentType := application_pdf | image_jpeg | image_png | image_tiff.

Definition contentTypeString (c : FormContentType) : string :=
  match c with
  | application_pdf => "application/pdf"
  | image_jpeg => "image/jpeg"
  | image_png => "image/png"
  | image_tiff => "image/tiff"
  end.

(** [OperationStatus] of the service, with the poller's own [canceled]. *)
Inductive OperationStatus := notStarted | running | succeeded | failed | canceled.

Definition terminal (s : OperationStatus) : bool :=
  match s with
  | succeeded | failed | canceled => true
  | notStarted | running => false
  end.

Definition OperationStatus_eqb (a b : OperationStatus) : bool :=
  match a, b with
  | notStarted, notStarted | running, running | succeeded, succeeded
  | failed, failed | canceled, canceled => true
  | _, _ => false
  end.

(** What [toRequestBody] hands to the generated client: the bytes of the
  document, or [{ source: url }]. *)
Inductive RequestBody :=
  | Binary (data : list Byte.byte)
  | SourcePath (source : string).

(** [FormRecognizerRequestBody | string]: a document or the URL of one. *)
Inductive FormSource :=
  | Document (data : list Byte.byte)
  | Url (formUrl : string).

Inductive CanonicalCode := OK | UNKNOWN.

Definition Span := string.

(** [!s] for a string: only the empty string is falsy. *)
Definition falsyString (s : string) : bool :=
  match s with
  | EmptyString => true
  | String _ _ => false
  end.

Open Scope list_scope.

Section Client.

(** The request options of [@azure/core-http], which this file only
    passes on. *)
Variable RequestOptionsBase : Type.

(** The second and third arguments of an [analyze*] call: either
    [(body, options)] or the single object [{ fileStream, ...options }]. *)
Inductive AnalyzeArgs :=
| WithBody (body : RequestBody) (options : RequestOptionsBase)
| WithFileStream (fileStream : RequestBody) (options : RequestOptionsBase).

(** The calls of the generated client; an undefined content type is [None]. *)
Inductive Call :=
| AnalyzeLayoutAsync (contentType : option string) (args : AnalyzeArgs)
| GetAnalyzeLayoutResult (resultId : string) (options : RequestOptionsBase)
| AnalyzeWithCustomModel (modelId : string) (contentType : option string) (args : AnalyzeArgs)
| GetAnalyzeFormResult (modelId : option string) (resultId : string) (options : RequestOptionsBase)
| AnalyzeBusinessCardAsync (contentType : option string) (args : AnalyzeArgs)
| GetAnalyzeBusinessCardResult (resultId : string) (options : RequestOptionsBase)
| AnalyzeReceiptAsync (contentType : option string) (args : AnalyzeArgs)
| GetAnalyzeReceiptResult (resultId : string) (options : RequestOptionsBase).

Inductive Event :=
| SpanStart (span : Span)
| SpanSetStatus (span : Span) (code : CanonicalCode) (msg : string)
| SpanEnd (span : Span)
| LogWarning (msg : string)
| Sniff (data : list Byte.byte)
| Net (call : Call)
| Progress (status : OperationStatus).

Definition History := list Event.

(** A computation reads the history so far and returns its outcome with
    the history it leaves; a throw keeps the events emitted before it. *)
Definition M (A : Type) : Type := History -> Outcome A * History.

Definition ret {A} (a : A) : M A := fun h => (inr a, h).

Definition throw {A} (e : Thrown) : M A := fun h => (inl e, h).

Definition bind {A B} (m : M A) (k : A -> M B) : M B :=
  fun h =>
    match m h with
    | (inl e, h') => (inl e, h')
    | (inr a, h') => k a h'
    end.

Definition emit (e : Event) : M unit := fun h => (inr tt, h ++ [e]).

Definition lift {A} (o : Outcome A) : M A := fun h => (o, h).

(** [try { body } catch (e) { handler e } finally { fin }] *)
Definition tryCatchFinally {A} (body : M A) (handler : Thrown -> M A) (fin : M unit) : M A :=
  fun h =>
    let '(r, h1) :=
      match body h with
      | (inl e, h') => handler e h'
      | (inr a, h') => (inr a, h')
      end in
    match fin h1 with
    | (inl e, h2) => (inl e, h2)
    | (inr _, h2) => (r, h2)
    end.

(** A promise stands for what is still to happen when it is awaited, and
    for the outcome of that. Every promise of the source is awaited once. *)
Definition Promise (A : Type) : Type := M A.

Definition await {A} (p : Promise A) : M A := p.

(** Calling an [async] function. [body] is the function up to its first
    [await], ending in the promise for the rest. The call runs that part
    at once and never throws: a throw in it rejects the promise. *)
Definition async {A} (body : M (Promise A)) : M (Promise A) :=
  fun h =>
    match body h with
    | (inl e, h') => (inr (throw e), h')
    | (inr rest, h') => (inr rest, h')
    end.

(** [e.message]: reading a property of [undefined] or [null] throws. *)
Definition readMessage (e : Thrown) : M string :=
  match e with
  | errorObject o => ret (message o)
  | thrownUndefined => throw (cannotReadMessage "undefined")
  | thrownNull => throw (cannotReadMessage "null")
  end.

Declare Scope js_scope.
Notation "x <- c ;; k" := (bind c (fun x => k))
  (at level 100, c at next level, right associativity) : js_scope.
Notation "' p <- c ;; k" := (bind c (fun x => let 'p := x in k))
  (at level 100, p pattern, c at next level, right associativity) : js_scope.
Notation "c ;;; k" := (bind c (fun _ => k))
  (at level 100, right associativity) : js_scope.
Open Scope js_scope.

(** *** The client's options *)

(** Types of the modules this file imports. *)
Variable TracingOptions : Type.
Variable Payload : Type.
Variable FormPageArray : Type.

(** The [onProgress] callback; it is handed the status of the state. *)
Definition ProgressCallback : Type := OperationStatus -> Outcome unit.

(** The fields of [BeginRecognizeContentOptions],
    [BeginRecognizeFormsOptions], [BeginRecognizeReceiptsOptions] and
    [BeginRecognizeBusinessCardsOptions] in one record; an absent field
    is [None]. *)
Record OperationOptions := {
  contentType : option FormContentType;
  includeFieldElements : option bool;
  includeTextDetails : option bool;
  locale : option string;
  updateIntervalInMs : option Z;
  onProgress : option ProgressCallback;
  resumeFrom : option string;
  tracingOptions : option TracingOptions
}.

(** [{}] *)
Definition emptyOptions : OperationOptions :=
  {| contentType := None; includeFieldElements := None; includeTextDetails := None;
     locale := None; updateIntervalInMs := None; onProgress := None;
     resumeFrom := None; tracingOptions := None |}.

(** [{ ...o, contentType: c }] *)
Definition withContentType (c : option FormContentType) (o : OperationOptions) :=
  {| contentType := c; includeFieldElements := includeFieldElements o;
     includeTextDetails := includeTextDetails o; locale := locale o;
     updateIntervalInMs := updateIntervalInMs o; onProgress := onProgress o;
     resumeFrom := resumeFrom o; tracingOptions := tracingOptions o |}.

(** [{ ...o, includeTextDetails: b }] *)
Definition withIncludeTextDetails (b : option bool) (o : OperationOptions) :=
  {| contentType := contentType o; includeFieldElements := includeFieldElements o;
     includeTextDetails := b; locale := locale o;
     updateIntervalInMs := updateIntervalInMs o; onProgress := onProgress o;
     resumeFrom := resumeFrom o; tracingOptions := tracingOptions o |}.

(** [{ ...o, tracingOptions: t }] *)
Definition withTracingOptions (t : option TracingOptions) (o : OperationOptions) :=
  {| contentType := contentType o; includeFieldElements := includeFieldElements o;
     includeTextDetails := includeTextDetails o; locale := locale o;
     updateIntervalInMs := updateIntervalInMs o; onProgress := onProgress o;
     resumeFrom := resumeFrom o; tracingOptions := t |}.

(** [{ ...o, resumeFrom: s }] *)
Definition withResumeFrom (s : option string) (o : OperationOptions) :=
  {| contentType := contentType o; includeFieldElements := includeFieldElements o;
     includeTextDetails := includeTextDetails o; locale := locale o;
     updateIntervalInMs := updateIntervalInMs o; onProgress := onProgress o;
     resumeFrom := s; tracingOptions := tracingOptions o |}.

(** [operationOptionsToRequestOptionsBase] of [@azure/core-http]. *)
Variable operationOptionsToRequestOptionsBase : OperationOptions -> RequestOptionsBase.

(** What the tracer does to the tracing options of a span it opens. *)
Variable updateTracing : string -> option TracingOptions -> option TracingOptions.

(** The magic-number detector behind [getContentType]: a content type,
    [undefined], or a throw when the bytes are not recognised. *)
Variable sniff : list Byte.byte -> Outcome (option FormContentType).

(** *** Tracing *)

(** [createSpan] of [./tracing]: opens the span and returns it with the
    options, whose tracing options the tracer may have updated. *)
Definition createSpan (name : string) (options : OperationOptions) : M (Span * OperationOptions) :=
  emit (SpanStart name) ;;;
  ret (name, withTracingOptions (updateTracing name (tracingOptions options)) options).

(** [span.setStatus({ code, message })] *)
Definition setStatus (span : Span) (code : CanonicalCode) (msg : string) : M unit :=
  emit (SpanSetStatus span code msg).

(** [span.end()] *)
Definition spanEnd (span : Span) : M unit := emit (SpanEnd span).

(** [logger.warning(msg)] *)
Definition logger_warning (msg : string) : M unit := emit (LogWarning msg).

(** *** The generated client *)

(** [AnalyzeOperationResult] of the generated models, the raw result of a
    [getAnalyze*Result] call: the status and, once there is one, the
    payload. *)
Record AnalyzeOperationResult := {
  status : OperationStatus;
  analyzeResult : option Payload
}.

(** The service stands behind the generated client: what it answers to a
    call may depend on everything that happened before. *)
Record GeneratedClient := {
  startResponse : History -> Call -> JsError + RemoteOperation;
  resultResponse : History -> Call -> JsError + AnalyzeOperationResult
}.

(** A method of the generated client is called: the call is made now, and
    the promise it returns resolves or rejects with the service's answer. *)
Definition sendStart (client : GeneratedClient) (call : Call) : M (Promise RemoteOperation) :=
  fun h => (inr (lift (rejection (startResponse client h call))), h ++ [Net call]).

Definition sendGet (client : GeneratedClient) (call : Call)
    : M (Promise AnalyzeOperationResult) :=
  fun h => (inr (lift (rejection (resultResponse client h call))), h ++ [Net call]).

Definition analyzeLayoutAsync client ct args := sendStart client (AnalyzeLayoutAsync ct args).
Definition analyzeWithCustomModel client modelId ct args :=
  sendStart client (AnalyzeWithCustomModel modelId ct args).
Definition analyzeBusinessCardAsync client ct args :=
  sendStart client (AnalyzeBusinessCardAsync ct args).
Definition analyzeReceiptAsync client ct args := sendStart client (AnalyzeReceiptAsync ct args).

Definition getAnalyzeLayoutResult client resultId options :=
  sendGet client (GetAnalyzeLayoutResult resultId options).
Definition getAnalyzeFormResult client modelId resultId options :=
  sendGet client (GetAnalyzeFormResult modelId resultId options).
Definition getAnalyzeBusinessCardResult client resultId options :=
  sendGet client (GetAnalyzeBusinessCardResult resultId options).
Definition getAnalyzeReceiptResult client resultId options :=
  sendGet client (GetAnalyzeReceiptResult resultId options).

(** *** [./common] *)

(** Modelled from the spec: [toRequestBody] of [./common] is not part of
    the sources. A URL becomes the file source the service fetches
    itself; a document becomes its bytes. *)
Definition toRequestBody (body : FormSource) : M RequestBody :=
  match body with
  | Url formUrl => ret (SourcePath formUrl)
  | Document data => ret (Binary data)
  end.

(** Modelled from the spec: [getContentType] of [./common] is not part of
    the sources. Detection inspects the leading bytes of a byte payload
    and is skipped for a URL source. *)
Definition getContentType (data : RequestBody) : M (option FormContentType) :=
  match data with
  | SourcePath _ => ret None
  | Binary bytes => emit (Sniff bytes) ;;; lift (sniff bytes)
  end.

Definition application_json : string := "application/json".

(** *** [makeSpanner] *)

(** [interface Spanner<Options>] *)
Record Spanner := {
  span : forall (Args Result : Type),
    string -> (OperationOptions -> Args -> M Result) -> Args -> M Result
}.

Definition makeSpanner (prefix : string) (options : OperationOptions) : Spanner :=
  {| span := fun Args Result name handler args =>
       ' (span, updatedOptions) <- createSpan (prefix ++ "-" ++ name)%string options ;;
       tryCatchFinally
         (handler updatedOptions args)
         (fun e => msg <- readMessage e ;; setStatus span UNKNOWN msg ;;; throw e)
         (spanEnd span) |}.

(** *** [recognizeLayoutInternal] and [getRecognizedContent] *)

Definition recognizeLayoutInternal (client : GeneratedClient) (body : FormSource)
    (contentType : option FormContentType) (options : option OperationOptions)
    (_modelId : option string) : M RemoteOperation :=
  let realOptions := match options with Some o => o | None => emptyOptions end in
  ' (span, finalOptions) <- createSpan "analyzeLayoutInternal" realOptions ;;
  requestBody <- toRequestBody body ;;
  requestContentType <-
    match contentType with
    | Some c => ret (Some c)
    | None => getContentType requestBody
    end ;;
  tryCatchFinally
    match requestContentType with
    | Some c =>
        pending <- analyzeLayoutAsync client (Some (contentTypeString c))
          (WithBody requestBody (operationOptionsToRequestOptionsBase finalOptions)) ;;
        await pending
    | None =>
        pending <- analyzeLayoutAsync client (Some application_json)
          (WithFileStream requestBody (operationOptionsToRequestOptionsBase finalOptions)) ;;
        await pending
    end
    (fun e => msg <- readMessage e ;; setStatus span UNKNOWN msg ;;; throw e)
    (spanEnd span).

(** [RecognizeContentResultResponse] of [./internalModels]: the status
    and the recognized pages. *)
Record RecognizeContentResultResponse := {
  contentStatus : OperationStatus;
  pages : option FormPageArray
}.

(** [toRecognizeContentResultResponse] of [./transforms], a pure function. *)
Variable toRecognizeContentResultResponse :
  AnalyzeOperationResult -> RecognizeContentResultResponse.

Definition getRecognizedContent (client : GeneratedClient) (resultId : string)
    (options : option OperationOptions) : M RecognizeContentResultResponse :=
  let realOptions := match options with Some o => o | None => emptyOptions end in
  ' (span, finalOptions) <-
    createSpan "FormRecognizerClient-getRecognizedLayoutResult" realOptions ;;
  tryCatchFinally
    (let requestOptions := operationOptionsToRequestOptionsBase finalOptions in
     pending <- getAnalyzeLayoutResult client resultId requestOptions ;;
     analyzeResult <- await pending ;;
     ret (toRecognizeContentResultResponse analyzeResult))
    (fun e => msg <- readMessage e ;; setStatus span UNKNOWN msg ;;; throw e)
    (spanEnd span).

(** *** The pollers *)

(** [PollOperationState<T>] with the [status] the client's states add. *)
Record PollOperationState (R : Type) := {
  stateStatus : OperationStatus;
  isStarted : bool;
  isCompleted : bool;
  isCancelled : bool;
  resultId : option string;
  result : option R
}.
Arguments stateStatus {R} _.
Arguments isStarted {R} _.
Arguments isCompleted {R} _.
Arguments isCancelled {R} _.
Arguments resultId {R} _.
Arguments result {R} _.

(** What a poller needs of its operation: how to start it, how to fetch
    its result, how to read a status, and whom to tell. *)
Record PollerOperation (R : Type) := {
  initiate : M string;
  fetch : string -> M R;
  statusOf : R -> OperationStatus;
  fireProgress : option ProgressCallback
}.
Arguments initiate {R} _.
Arguments fetch {R} _ _.
Arguments statusOf {R} _ _.
Arguments fireProgress {R} _.

(** Modelled from the spec: the state a poller is constructed with. The
    poller classes of [./lro/analyze] are not part of the sources. A fresh
    poller has not started and holds no handle. *)
Definition freshState (R : Type) : PollOperationState R :=
  {| stateStatus := notStarted; isStarted := false; isCompleted := false;
     isCancelled := false; resultId := None; result := None |}.

(** [SerializedPollerState]: the handle and the last known status. *)
Record SerializedPollerState := {
  serializedHandle : option string;
  serializedStatus : OperationStatus
}.

(** The textual encoding of a serialized state is the poller's own. *)
Variable deserialize : string -> SerializedPollerState.

(** Modelled from the spec: a resumed poller skips initiation and takes
    the persisted status and handle. *)
Definition resumedState (R : Type) (s : SerializedPollerState) : PollOperationState R :=
  {| stateStatus := serializedStatus s;
     isStarted := match serializedHandle s with Some _ => true | None => false end;
     isCompleted := terminal (serializedStatus s);
     isCancelled := false; resultId := serializedHandle s; result := None |}.

(** Modelled from the spec: construction is fresh, or resumed when
    [resumeFrom] is given. *)
Definition initialState (R : Type) (options : OperationOptions) : PollOperationState R :=
  match resumeFrom options with
  | Some serialized => resumedState R (deserialize serialized)
  | None => freshState R
  end.

(** Modelled from the spec: the handle a poll works with. A poller that
    holds a handle, from an earlier poll or from a serialized state, skips
    initiation; otherwise the operation is initiated now. *)
Definition acquireHandle {R} (op : PollerOperation R) (st : PollOperationState R)
    : M string :=
  match resultId st with
  | Some handle => ret handle
  | None => initiate op
  end.

(** Modelled from the spec: the state once the handle is held. *)
Definition started {R} (handle : string) (st : PollOperationState R) : PollOperationState R :=
  {| stateStatus := stateStatus st; isStarted := true; isCompleted := isCompleted st;
     isCancelled := isCancelled st; resultId := Some handle; result := result st |}.

(** Modelled from the spec: no payload has been fetched yet, so the next
    status check is the very first. *)
Definition firstCheck {R} (st : PollOperationState R) : bool :=
  match result st with
  | None => true
  | Some _ => false
  end.

(** Modelled from the spec: [poll()] of the poller classes, which are not
    part of the sources. A terminal poller does nothing. Otherwise the
    operation is initiated unless a handle is held already, one fetch
    follows, the status is updated from the response, and a change of
    status is reported to the callback, except that an operation found
    terminal by the very first status check is not reported. The state is
    returned next to the outcome, because a rejected [poll()] leaves the
    poller usable. *)
Definition poll {R} (op : PollerOperation R) (st : PollOperationState R)
    : History -> (Outcome unit * PollOperationState R) * History :=
  fun h =>
    if terminal (stateStatus st) then ((inr tt, st), h)
    else
      match acquireHandle op st h with
      | (inl e, h1) => ((inl e, st), h1)
      | (inr handle, h1) =>
          let st1 := started handle st in
          match fetch op handle h1 with
          | (inl e, h2) => ((inl e, st1), h2)
          | (inr response, h2) =>
              let s := statusOf op response in
              let st2 :=
                {| stateStatus := s; isStarted := true; isCompleted := terminal s;
                   isCancelled := isCancelled st1; resultId := Some handle;
                   result := Some response |} in
              if negb (OperationStatus_eqb s (stateStatus st))
                 && negb (firstCheck st && terminal s)
              then
                match fireProgress op with
                | Some callback => ((callback s, st2), h2 ++ [Progress s])
                | None => ((inr tt, st2), h2)
                end
              else ((inr tt, st2), h2)
          end
      end.

(** A poller object: its operation and its current state. *)
Record Poller (R : Type) := {
  operation : PollerOperation R;
  state : PollOperationState R
}.
Arguments operation {R} _.
Arguments state {R} _.

(** [poller.poll()] called [n] times in a row, each on the state the
    previous call left, stopping at the first rejection. *)
Fixpoint pollTimes {R} (n : nat) (op : PollerOperation R) (st : PollOperationState R)
    (h : History) : (Outcome unit * PollOperationState R) * History :=
  match n with
  | O => ((inr tt, st), h)
  | S n' =>
      match poll op st h with
      | ((inl e, st'), h') => ((inl e, st'), h')
      | ((inr _, st'), h') => pollTimes n' op st' h'
      end
  end.

(** [await poller.poll(); return poller;] *)
Definition pollAndReturn {R} (poller : Poller R) : M (Poller R) :=
  fun h =>
    match poll (operation poller) (state poller) h with
    | ((inl e, _), h') => (inl e, h')
    | ((inr _, st'), h') => (inr {| operation := operation poller; state := st' |}, h')
    end.

(** [RecognizeContentPollerClient] *)
Record RecognizeContentPollerClient := {
  beginRecognize :
    FormSource -> option FormContentType -> option OperationOptions -> option string ->
    M RemoteOperation;
  getRecognizeResult : string -> option OperationOptions -> M RecognizeContentResultResponse
}.

(** The argument of [new BeginRecognizeContentPoller]: the client, the
    source, and the spread options. *)
Record BeginRecognizeContentPollerOptions := {
  pollerClient : RecognizeContentPollerClient;
  source : FormSource;
  contentOptions : OperationOptions
}.

(** Modelled from the spec: [BeginRecognizeContentPoller] of
    [./lro/analyze/contentPoller], which is not part of the sources. It
    initiates through [beginRecognize] with the source and the content type
    it was given, keeps the handle after the last separator of the
    operation location, and fetches through [getRecognizeResult]. *)
Definition BeginRecognizeContentPoller (o : BeginRecognizeContentPollerOptions)
    : Poller RecognizeContentResultResponse :=
  {| operation :=
       {| initiate :=
            response <- beginRecognize (pollerClient o) (source o)
                          (contentType (contentOptions o)) (Some (contentOptions o)) None ;;
            lift (processOperationLocation response);
          fetch := fun handle =>
            getRecognizeResult (pollerClient o) handle (Some (contentOptions o));
          statusOf := contentStatus;
          fireProgress := onProgress (contentOptions o) |};
     state := initialState _ (contentOptions o) |}.

(** The argument of [new FormRecognitionPoller]. *)
Record FormRecognitionPollerOptions := {
  modelId : option string;
  expectedDocType : option string;
  createOperation : unit -> M (Promise string);
  getResult : string * option string -> M (Promise AnalyzeOperationResult);
  formOptions : OperationOptions
}.

(** Modelled from the spec: [FormRecognitionPoller] of
    [./lro/analyze/recognitionPoller], which is not part of the sources. It
    initiates through [createOperation] and fetches through [getResult],
    which it hands the handle and the model identifier it was constructed
    with. *)
Definition FormRecognitionPoller (o : FormRecognitionPollerOptions)
    : Poller AnalyzeOperationResult :=
  {| operation :=
       {| initiate := (p <- createOperation o tt ;; await p);
          fetch := fun handle => (p <- getResult o (handle, modelId o) ;; await p);
          statusOf := status;
          fireProgress := onProgress (formOptions o) |};
     state := initialState _ (formOptions o) |}.

(** *** The constructor *)

(** Constants of [./constants]. *)
Variable SDK_VERSION : string.
Variable DEFAULT_COGNITIVE_SCOPE : string.

Variable TokenCredential : Type.
Variable KeyCredential : Type.

(** [TokenCredential | KeyCredential] *)
Definition Credential : Type := (TokenCredential + KeyCredential)%type.

Definition isTokenCredential (credential : Credential) : bool :=
  match credential with
  | inl _ => true
  | inr _ => false
  end.

(** The authentication policies the constructor chooses from. *)
Inductive RequestPolicyFactory :=
| bearerTokenAuthenticationPolicy (credential : TokenCredential) (scopes : string)
| createFormRecognizerAzureKeyCredentialPolicy (credential : KeyCredential).

Record UserAgentOptions := { userAgentPrefix : option string }.

(** The logging options and the remaining pipeline options are passed on
    as they are. *)
Variable LoggingOptions : Type.
Variable OtherPipelineOptions : Type.

(** [{ logger: logger.info, allowedHeaderNames: ..., allowedQueryParameters: ... }] *)
Variable formRecognizerLoggingOptions : LoggingOptions.

(** [FormRecognizerClientOptions], which is [PipelineOptions]. *)
Record PipelineOptions := {
  userAgentOptions : option UserAgentOptions;
  loggingOptions : option LoggingOptions;
  otherOptions : OtherPipelineOptions
}.

(** What [createPipelineFromOptions] is given: the options and the
    authentication policy. *)
Record ServiceClientOptions := createPipelineFromOptions {
  pipelineOptions : PipelineOptions;
  authPolicy : RequestPolicyFactory
}.

(** [new GeneratedClient(endpointUrl, pipeline)] *)
Variable newGeneratedClient : string -> ServiceClientOptions -> GeneratedClient.

Record FormRecognizerClient := {
  endpointUrl : string;
  client : GeneratedClient
}.

Definition libInfo : string := ("azsdk-js-ai-formrecognizer/" ++ SDK_VERSION)%string.

(** The local [pipeline] of the constructor. *)
Definition constructorPipeline (credential : Credential) (options : PipelineOptions)
    : ServiceClientOptions :=
  let userAgent :=
    match userAgentOptions options with
    | Some u => u
    | None => {| userAgentPrefix := None |}
    end in
  let userAgent' :=
    if negb (falsy (userAgentPrefix userAgent))
    then
      match userAgentPrefix userAgent with
      | Some prefix => {| userAgentPrefix := Some (prefix ++ " " ++ libInfo)%string |}
      | None => {| userAgentPrefix := Some libInfo |}
      end
    else {| userAgentPrefix := Some libInfo |} in
  let authPolicy :=
    match credential with
    | inl token => bearerTokenAuthenticationPolicy token DEFAULT_COGNITIVE_SCOPE
    | inr key => createFormRecognizerAzureKeyCredentialPolicy key
    end in
  let internalPipelineOptions :=
    {| userAgentOptions := Some userAgent';
       loggingOptions := Some formRecognizerLoggingOptions;
       otherOptions := otherOptions options |} in
  createPipelineFromOptions internalPipelineOptions authPolicy.

(** [new FormRecognizerClient(endpointUrl, credential, options)] *)
Definition newFormRecognizerClient (endpointUrl : string) (credential : Credential)
    (options : PipelineOptions) : FormRecognizerClient :=
  let pipeline := constructorPipeline credential options in
  {| endpointUrl := endpointUrl; client := newGeneratedClient endpointUrl pipeline |}.

(** *** The [beginRecognize*] methods *)

Definition invalidModelId : JsError := mkError RangeError "Invalid model id".

Definition ignoringContentType : string :=
  "Ignoring 'contentType' parameter passed to URL-based method.".

(** [if (options.contentType) { logger.warning(...) }] *)
Definition warnIfContentType (options : OperationOptions) : M unit :=
  match contentType options with
  | Some _ => logger_warning ignoringContentType
  | None => ret tt
  end.

Definition contentPollerClient (this : FormRecognizerClient) : RecognizeContentPollerClient :=
  {| beginRecognize := recognizeLayoutInternal (client this);
     getRecognizeResult := getRecognizedContent (client this) |}.

Definition beginRecognizeContent (this : FormRecognizerClient) (form : list Byte.byte)
    (options : OperationOptions) : M (Poller RecognizeContentResultResponse) :=
  let poller := BeginRecognizeContentPoller
    {| pollerClient := contentPollerClient this;
       source := Document form;
       contentOptions := options |} in
  pollAndReturn poller.

Definition beginRecognizeContentFromUrl (this : FormRecognizerClient) (formUrl : string)
    (options : OperationOptions) : M (Poller RecognizeContentResultResponse) :=
  warnIfContentType options ;;;
  let poller := BeginRecognizeContentPoller
    {| pollerClient := contentPollerClient this;
       source := Url formUrl;
       contentOptions := withContentType None options |} in
  pollAndReturn poller.

(** [finalOptions.contentType ?? (await getContentType(requestBody))] *)
Definition contentTypeOrSniffed (finalOptions : OperationOptions) (requestBody : RequestBody)
    : M (option FormContentType) :=
  match contentType finalOptions with
  | Some c => ret (Some c)
  | None => getContentType requestBody
  end.

(** The object handed to [new FormRecognitionPoller] by
    [beginRecognizeCustomForms]. *)
Definition customFormsPoller (this : FormRecognizerClient) (modelId : string)
    (form : list Byte.byte) (options : OperationOptions) : FormRecognitionPollerOptions :=
  let spanner := makeSpanner "FormRecognizerClient-beginRecognizeCustomForms"
    (withIncludeTextDetails (includeFieldElements options) options) in
  {| modelId := Some modelId;
     expectedDocType := None;
     createOperation :=
       span spanner _ _ "customFormsInternal" (fun finalOptions (_ : unit) => async (
         (* suspended at once, at [await toRequestBody(...)] *)
         ret (
           requestBody <- toRequestBody (Document form) ;;
           contentType <- contentTypeOrSniffed finalOptions requestBody ;;
           pending <- analyzeWithCustomModel (client this) modelId
             (option_map contentTypeString contentType)
             (WithBody requestBody (operationOptionsToRequestOptionsBase finalOptions)) ;;
           response <- await pending ;;
           lift (processOperationLocation response))));
     getResult :=
       span spanner _ _ "getCustomForms"
         (fun finalOptions (args : string * option string) =>
            let '(resultId, modelId) := args in
            (* the modelId of the parameter, not the one of the method *)
            async (getAnalyzeFormResult (client this) modelId resultId
                     (operationOptionsToRequestOptionsBase finalOptions)));
     formOptions := options |}.

Definition beginRecognizeCustomForms (this : FormRecognizerClient) (modelId : string)
    (form : list Byte.byte) (options : OperationOptions) : M (Poller AnalyzeOperationResult) :=
  if falsyString modelId then throw invalidModelId
  else pollAndReturn (FormRecognitionPoller (customFormsPoller this modelId form options)).

(** The object handed to [new FormRecognitionPoller] by
    [beginRecognizeCustomFormsFromUrl]. *)
Definition customFormsFromUrlPoller (this : FormRecognizerClient) (modelId : string)
    (formUrl : string) (options : OperationOptions) : FormRecognitionPollerOptions :=
  let spanner := makeSpanner "FormRecognizerClient-beginRecognizeCustomForms"
    (withIncludeTextDetails (includeFieldElements options) options) in
  {| modelId := Some modelId;
     expectedDocType := None;
     createOperation :=
       span spanner _ _ "customFormsInternal" (fun finalOptions (_ : unit) => async (
         (* the call is made before the handler suspends at its [await] *)
         pending <- analyzeWithCustomModel (client this) modelId (Some application_json)
           (WithFileStream (SourcePath formUrl)
              (operationOptionsToRequestOptionsBase finalOptions)) ;;
         ret (response <- await pending ;; lift (processOperationLocation response))));
     getResult :=
       span spanner _ _ "getCustomForms"
         (fun finalOptions (args : string * option string) =>
            let '(resultId, modelId) := args in
            (* the modelId of the parameter, not the one of the method *)
            async (getAnalyzeFormResult (client this) modelId resultId
                     (operationOptionsToRequestOptionsBase finalOptions)));
     formOptions := options |}.

Definition beginRecognizeCustomFormsFromUrl (this : FormRecognizerClient) (modelId : string)
    (formUrl : string) (options : OperationOptions) : M (Poller AnalyzeOperationResult) :=
  if falsyString modelId then throw invalidModelId
  else pollAndReturn (FormRecognitionPoller (customFormsFromUrlPoller this modelId formUrl options)).

(** The object handed to [new FormRecognitionPoller] by
    [beginRecognizeBusinessCards]. *)
Definition businessCardsPoller (this : FormRecognizerClient) (businessCard : list Byte.byte)
    (options : OperationOptions) : FormRecognitionPollerOptions :=
  let spanner := makeSpanner "FormRecognizerClient-beginRecognizeBusinessCards"
    (withIncludeTextDetails (includeFieldElements options) options) in
  {| modelId := None;
     expectedDocType := Some "prebuilt:businessCard";
     createOperation :=
       span spanner _ _ "businessCardsInternal" (fun finalOptions (_ : unit) => async (
         (* suspended at once, at [await toRequestBody(...)] *)
         ret (
           requestBody <- toRequestBody (Document businessCard) ;;
           contentType <- contentTypeOrSniffed finalOptions requestBody ;;
           pending <- analyzeBusinessCardAsync (client this)
             (option_map contentTypeString contentType)
             (WithBody requestBody (operationOptionsToRequestOptionsBase finalOptions)) ;;
           response <- await pending ;;
           lift (processOperationLocation response))));
     getResult :=
       span spanner _ _ "getBusinessCards"
         (fun finalOptions (args : string * option string) =>
            let '(resultId, _) := args in
            async (getAnalyzeBusinessCardResult (client this) resultId
                     (operationOptionsToRequestOptionsBase finalOptions)));
     formOptions := options |}.

Definition beginRecognizeBusinessCards (this : FormRecognizerClient) (businessCard : list Byte.byte)
    (options : OperationOptions) : M (Poller AnalyzeOperationResult) :=
  pollAndReturn (FormRecognitionPoller (businessCardsPoller this businessCard options)).

(** The object handed to [new FormRecognitionPoller] by
    [beginRecognizeBusinessCardsFromUrl]. *)
Definition businessCardsFromUrlPoller (this : FormRecognizerClient) (businessCardUrl : string)
    (options : OperationOptions) : FormRecognitionPollerOptions :=
  let spanner := makeSpanner "FormRecognizerClient-beginRecognizeBusinessCardsFromUrl"
    (withIncludeTextDetails (includeFieldElements options) (withContentType None options)) in
  {| modelId := None;
     expectedDocType := Some "prebuilt:businessCard";
     createOperation :=
       span spanner _ _ "businessCardsInternal" (fun finalOptions (_ : unit) => async (
         (* the call is made before the handler suspends at its [await] *)
         pending <- analyzeBusinessCardAsync (client this) (Some application_json)
           (WithFileStream (SourcePath businessCardUrl)
              (operationOptionsToRequestOptionsBase finalOptions)) ;;
         ret (response <- await pending ;; lift (processOperationLocation response))));
     getResult :=
       span spanner _ _ "getBusinessCards"
         (fun finalOptions (args : string * option string) =>
            let '(resultId, _) := args in
            async (getAnalyzeBusinessCardResult (client this) resultId
                     (operationOptionsToRequestOptionsBase finalOptions)));
     formOptions := options |}.

Definition beginRecognizeBusinessCardsFromUrl (this : FormRecognizerClient) (businessCardUrl : string)
    (options : OperationOptions) : M (Poller AnalyzeOperationResult) :=
  warnIfContentType options ;;;
  pollAndReturn (FormRecognitionPoller (businessCardsFromUrlPoller this businessCardUrl options)).

(** The object handed to [new FormRecognitionPoller] by
    [beginRecognizeReceipts]. *)
Definition receiptsPoller (this : FormRecognizerClient) (receipt : list Byte.byte)
    (options : OperationOptions) : FormRecognitionPollerOptions :=
  let spanner := makeSpanner "FormRecognizerClient-beginRecognizeReceipts"
    (withIncludeTextDetails (includeFieldElements options) options) in
  {| modelId := None;
     expectedDocType := Some "prebuilt:receipt";
     createOperation :=
       span spanner _ _ "receiptsInternal" (fun finalOptions (_ : unit) => async (
         (* suspended at once, at [await toRequestBody(...)] *)
         ret (
           requestBody <- toRequestBody (Document receipt) ;;
           contentType <- contentTypeOrSniffed finalOptions requestBody ;;
           pending <- analyzeReceiptAsync (client this)
             (option_map contentTypeString contentType)
             (WithBody requestBody (operationOptionsToRequestOptionsBase finalOptions)) ;;
           response <- await pending ;;
           lift (processOperationLocation response))));
     getResult :=
       span spanner _ _ "getReceipts"
         (fun finalOptions (args : string * option string) =>
            let '(resultId, _) := args in
            async (getAnalyzeReceiptResult (client this) resultId
                     (operationOptionsToRequestOptionsBase finalOptions)));
     formOptions := options |}.

Definition beginRecognizeReceipts (this : FormRecognizerClient) (receipt : list Byte.byte)
    (options : OperationOptions) : M (Poller AnalyzeOperationResult) :=
  pollAndReturn (FormRecognitionPoller (receiptsPoller this receipt options)).

(** The object handed to [new FormRecognitionPoller] by
    [beginRecognizeReceiptsFromUrl]. *)
Definition receiptsFromUrlPoller (this : FormRecognizerClient) (receiptUrl : string)
    (options : OperationOptions) : FormRecognitionPollerOptions :=
  let spanner := makeSpanner "FormRecognizerClient-beginRecognizeReceiptsFromUrl"
    (withIncludeTextDetails (includeFieldElements options) (withContentType None options)) in
  {| modelId := None;
     expectedDocType := Some "prebuilt:receipt";
     createOperation :=
       span spanner _ _ "receiptsInternal" (fun finalOptions (_ : unit) => async (
         (* the call is made before the handler suspends at its [await] *)
         pending <- analyzeReceiptAsync (client this) (Some application_json)
           (WithFileStream (SourcePath receiptUrl)
              (operationOptionsToRequestOptionsBase finalOptions)) ;;
         ret (response <- await pending ;; lift (processOperationLocation response))));
     getResult :=
       span spanner _ _ "getReceipts"
         (fun finalOptions (args : string * option string) =>
            let '(resultId, _) := args in
            async (getAnalyzeReceiptResult (client this) resultId
                     (operationOptionsToRequestOptionsBase finalOptions)));
     formOptions := options |}.

Definition beginRecognizeReceiptsFromUrl (this : FormRecognizerClient) (receiptUrl : string)
    (options : OperationOptions) : M (Poller AnalyzeOperationResult) :=
  warnIfContentType options ;;;
  pollAndReturn (FormRecognitionPoller (receiptsFromUrlPoller this receiptUrl options)).

(** *** What a history shows *)

(** The span name and the options a handler wrapped by [makeSpanner] runs
    with. *)
Definition spanName (prefix name : string) : string := (prefix ++ "-" ++ name)%string.

Definition updatedOptions (prefix name : string) (options : OperationOptions) :=
  withTracingOptions (updateTracing (spanName prefix name) (tracingOptions options)) options.

(** The request options of a handler wrapped by the spanner of a
    [beginRecognize*] method for forms. *)
Definition formRequestOptions (prefix name : string) (options : OperationOptions)
    : RequestOptionsBase :=
  operationOptionsToRequestOptionsBase
    (updatedOptions prefix name
       (withIncludeTextDetails (includeFieldElements options) options)).

(** The calls of the generated client, in order. *)
Fixpoint netCalls (h : History) : list Call :=
  match h with
  | [] => []
  | Net call :: h' => call :: netCalls h'
  | _ :: h' => netCalls h'
  end.

(** A call that fetches a result. *)
Definition isFetch (call : Call) : bool :=
  match call with
  | GetAnalyzeLayoutResult _ _ | GetAnalyzeFormResult _ _ _
  | GetAnalyzeBusinessCardResult _ _ | GetAnalyzeReceiptResult _ _ => true
  | _ => false
  end.

Definition fetchCalls (h : History) : list Call := filter isFetch (netCalls h).

(** The payloads whose leading bytes were inspected, in order. *)
Fixpoint sniffed (h : History) : list (list Byte.byte) :=
  match h with
  | [] => []
  | Sniff data :: h' => data :: sniffed h'
  | _ :: h' => sniffed h'
  end.


(** The statuses [onProgress] was called with, in order. *)
Fixpoint progressCalls (h : History) : list OperationStatus :=
  match h with
  | [] => []
  | Progress s :: h' => s :: progressCalls h'
  | _ :: h' => progressCalls h'
  end.

(** The request options [getRecognizedContent] sends. *)
Definition contentResultRequestOptions (options : option OperationOptions)
    : RequestOptionsBase :=
  let realOptions := match options with Some o => o | None => emptyOptions end in
  operationOptionsToRequestOptionsBase
    (withTracingOptions
       (updateTracing "FormRecognizerClient-getRecognizedLayoutResult"
          (tracingOptions realOptions))
       realOptions).

(** The request options [recognizeLayoutInternal] sends. *)
Definition layoutRequestOptions (options : option OperationOptions) : RequestOptionsBase :=
  let realOptions := match options with Some o => o | None => emptyOptions end in
  operationOptionsToRequestOptionsBase
    (withTracingOptions
       (updateTracing "analyzeLayoutInternal" (tracingOptions realOptions))
       realOptions).

(** The messages [logger.warning] was called with, in order. *)
Fixpoint warnings (h : History) : list string :=
  match h with
  | [] => []
  | LogWarning msg :: h' => msg :: warnings h'
  | _ :: h' => warnings h'
  end.

(** The statuses that were set on spans, in order. *)
Fixpoint spanStatuses (h : History) : list (Span * CanonicalCode * string) :=
  match h with
  | [] => []
  | SpanSetStatus span code msg :: h' => (span, code, msg) :: spanStatuses h'
  | _ :: h' => spanStatuses h'
  end.

(** What the constructor writes into a [userAgentOptions] object:
    the prefix followed by the library's identifier, or the identifier
    alone when there is no prefix. *)
Definition addLibInfo (u : UserAgentOptions) : UserAgentOptions :=
  if negb (falsy (userAgentPrefix u))
  then
    match userAgentPrefix u with
    | Some prefix => {| userAgentPrefix := Some (prefix ++ " " ++ libInfo)%string |}
    | None => {| userAgentPrefix := Some libInfo |}
    end
  else {| userAgentPrefix := Some libInfo |}.

(** What the caller's options object holds once the constructor has run.
    [const { ...pipelineOptions } = options] copies the fields, not the
    objects in them: a [userAgentOptions] object the caller supplied is the
    very object whose [userAgentPrefix] the constructor assigns. An absent
    one is created on the copy, and the caller's object stays as it was. *)
Definition optionsAfterConstructor (options : PipelineOptions) : PipelineOptions :=
  match userAgentOptions options with
  | Some u =>
      {| userAgentOptions := Some (addLibInfo u);
         loggingOptions := loggingOptions options;
         otherOptions := otherOptions options |}
  | None => options
  end.

(* ===================================================================== *)
(** ** Facts about the string operations *)
(* ===================================================================== *)

Lemma lastIndexOf_from_absent c s : forall i acc,
  JsString.contains c s = false -> JsString.lastIndexOf_from c s i acc = acc.
Proof.
  induction s as [|a s IH]; intros i acc H; simpl in *.
  - reflexivity.
  - apply orb_false_iff in H. destruct H as [Ha Hs].
    rewrite Ha. now apply IH.
Qed.

Lemma lastIndexOf_from_append c pre suf : forall i acc,
  JsString.contains c suf = false ->
  JsString.lastIndexOf_from c (pre ++ String c suf)%string i acc
  = i + Z.of_nat (String.length pre).
Proof.
  induction pre as [|a pre IH]; intros i acc H; simpl.
  - rewrite Ascii.eqb_refl. rewrite lastIndexOf_from_absent by assumption. lia.
  - rewrite IH by assumption. lia.
Qed.

Lemma drop_append pre suf : JsString.drop (String.length pre) (pre ++ suf)%string = suf.
Proof. induction pre as [|a pre IH]; simpl; [now destruct suf|exact IH]. Qed.

Lemma append_length pre suf :
  String.length (pre ++ suf)%string = (String.length pre + String.length suf)%nat.
Proof. induction pre as [|a pre IH]; simpl; [reflexivity|now rewrite IH]. Qed.

Lemma append_cons pre c suf :
  (pre ++ String c suf = (pre ++ String c EmptyString) ++ suf)%string.
Proof. induction pre as [|a pre IH]; simpl; [reflexivity|now rewrite IH]. Qed.

Lemma substring_zero s : JsString.substring s 0 = s.
Proof.
  unfold JsString.substring, JsString.length.
  replace (Z.min (Z.max 0 0) (Z.of_nat (String.length s))) with 0 by lia.
  reflexivity.
Qed.

(** The handle after the last separator of [pre/suf]. *)
Lemma substring_after_last_slash pre suf :
  JsString.contains slash suf = false ->
  JsString.substring (pre ++ String slash suf)%string
    (JsString.lastIndexOf (pre ++ String slash suf)%string slash + 1) = suf.
Proof.
  intros H. unfold JsString.lastIndexOf. rewrite lastIndexOf_from_append by assumption.
  unfold JsString.substring, JsString.length. rewrite append_length. simpl String.length.
  replace (Z.to_nat _) with (String.length (pre ++ String slash EmptyString)%string).
  - rewrite (append_cons pre slash suf). apply drop_append.
  - rewrite append_length. simpl. lia.
Qed.

Lemma processOperationLocation_absent r :
  falsy (operationLocation r) = true ->
  processOperationLocation r = inl missingOperationLocation.
Proof.
  unfold processOperationLocation. destruct (operationLocation r) as [loc|]; [|reflexivity].
  intros H. now rewrite H.
Qed.

Lemma processOperationLocation_present loc :
  falsyString loc = false ->
  processOperationLocation {| operationLocation := Some loc |}
  = inr (JsString.substring loc (JsString.lastIndexOf loc slash + 1)).
Proof. destruct loc; [discriminate|reflexivity]. Qed.

(* ===================================================================== *)
(** ** Facts about histories *)
(* ===================================================================== *)

Lemma netCalls_app h1 h2 : netCalls (h1 ++ h2) = netCalls h1 ++ netCalls h2.
Proof.
  induction h1 as [|e h1 IH]; simpl; [reflexivity|].
  destruct e; simpl; now rewrite IH.
Qed.

Lemma sniffed_app h1 h2 : sniffed (h1 ++ h2) = sniffed h1 ++ sniffed h2.
Proof.
  induction h1 as [|e h1 IH]; simpl; [reflexivity|].
  destruct e; simpl; now rewrite IH.
Qed.

Lemma fetchCalls_app h1 h2 : fetchCalls (h1 ++ h2) = fetchCalls h1 ++ fetchCalls h2.
Proof. unfold fetchCalls. now rewrite netCalls_app, filter_app. Qed.

(* ===================================================================== *)
(** ** The handle of an operation *)
(* ===================================================================== *)

(** C10. A non-empty operation location without any ['/'] is returned
    whole: [lastIndexOf] answers [-1] and [substring(0)] is the string. *)
Theorem processOperationLocation_no_separator (loc : string) :
  falsyString loc = false ->
  JsString.contains slash loc = false ->
  JsString.lastIndexOf loc slash = -1 /\
  processOperationLocation {| operationLocation := Some loc |} = inr loc.
Proof.
  intros Hne Hno.
  assert (Hidx : JsString.lastIndexOf loc slash = -1).
  { unfold JsString.lastIndexOf. now apply lastIndexOf_from_absent. }
  split; [exact Hidx|].
  rewrite processOperationLocation_present by assumption.
  rewrite Hidx. simpl. now rewrite substring_zero.
Qed.

(* ===================================================================== *)
(** ** The model identifier *)
(* ===================================================================== *)

(** C2. With an empty model identifier both custom-form methods reject
    with the error raised for an invalid model id, and the history is left
    as it was: no call of the generated client and no other event. *)
Theorem empty_modelId_rejected_before_any_call
    (this : FormRecognizerClient) (form : list Byte.byte) (formUrl : string)
    (options : OperationOptions) (h : History) :
  beginRecognizeCustomForms this "" form options h = (inl invalidModelId, h) /\
  beginRecognizeCustomFormsFromUrl this "" formUrl options h = (inl invalidModelId, h) /\
  errorClass invalidModelId = RangeError /\
  netCalls (snd (beginRecognizeCustomForms this "" form options h)) = netCalls h /\
  netCalls (snd (beginRecognizeCustomFormsFromUrl this "" formUrl options h)) = netCalls h.
Proof. repeat split. Qed.

(* ===================================================================== *)
(** ** The tracing wrapper *)
(* ===================================================================== *)



(* ===================================================================== *)
(** ** The constructor *)
(* ===================================================================== *)

(** C8. A token credential gives the bearer-token policy with the
    cognitive-services scope, any other credential the key policy. The
    endpoint, the options of the pipeline and the way the generated client
    is made do not depend on the credential. *)
Theorem constructor_authPolicy (endpointUrl : string) (options : PipelineOptions) :
  (forall token : TokenCredential,
     isTokenCredential (inl token) = true /\
     authPolicy (constructorPipeline (inl token) options)
     = bearerTokenAuthenticationPolicy token DEFAULT_COGNITIVE_SCOPE) /\
  (forall key : KeyCredential,
     isTokenCredential (inr key) = false /\
     authPolicy (constructorPipeline (inr key) options)
     = createFormRecognizerAzureKeyCredentialPolicy key) /\
  (forall credential credential' : Credential,
     pipelineOptions (constructorPipeline credential options)
     = pipelineOptions (constructorPipeline credential' options)) /\
  (forall credential : Credential,
     newFormRecognizerClient endpointUrl credential options
     = {| endpointUrl := endpointUrl;
          client := newGeneratedClient endpointUrl (constructorPipeline credential options) |}).
Proof.
  repeat split.
Qed.

(* ===================================================================== *)
(** ** Initiation from a URL *)
(* ===================================================================== *)

Ltac unfold_client :=
  unfold beginRecognizeContentFromUrl, beginRecognizeContent,
    beginRecognizeCustomForms, beginRecognizeCustomFormsFromUrl,
    beginRecognizeBusinessCards, beginRecognizeBusinessCardsFromUrl,
    beginRecognizeReceipts, beginRecognizeReceiptsFromUrl,
    customFormsPoller, customFormsFromUrlPoller, businessCardsPoller,
    businessCardsFromUrlPoller, receiptsPoller, receiptsFromUrlPoller,
    FormRecognitionPoller, BeginRecognizeContentPoller, contentPollerClient,
    pollAndReturn, poll, acquireHandle, initialState, warnIfContentType, logger_warning,
    recognizeLayoutInternal, getRecognizedContent, contentTypeOrSniffed,
    toRequestBody, getContentType, createSpan, setStatus, spanEnd,
    analyzeLayoutAsync, analyzeWithCustomModel, analyzeBusinessCardAsync,
    analyzeReceiptAsync, getAnalyzeLayoutResult, getAnalyzeFormResult,
    getAnalyzeBusinessCardResult, getAnalyzeReceiptResult, sendStart, sendGet,
    makeSpanner, tryCatchFinally, readMessage, rejection, bind, await, async, ret, throw,
    emit, lift in *.

Ltac split_cases :=
  repeat match goal with
    | |- context [match ?x with _ => _ end] =>
        lazymatch x with
        | context [match _ with _ => _ end] => fail
        | _ => destruct x eqn:?; simpl in *
        end
    end.

Ltac history_simpl :=
  rewrite <- ?app_assoc; rewrite ?netCalls_app, ?sniffed_app; simpl;
  rewrite ?app_nil_r.


(* ===================================================================== *)
(** ** One call for one fetch *)
(* ===================================================================== *)

(** C7. A fetch makes one call of the generated client and no other. When
    that call rejects, the fetch rejects with the same error; when it
    answers, the fetch returns the answer (transformed, for content). This
    holds for [getRecognizedContent] and for the fetch of each of the six
    form pollers, where the call is made inside the span of [getResult]. *)
Theorem fetch_once_without_retry (this : FormRecognizerClient) (resultId : string)
    (options : OperationOptions) (form : list Byte.byte) (modelId formUrl : string)
    (h : History) :
  let fetchOf := fun o => fetch (operation (FormRecognitionPoller o)) resultId h in
  let once := fun (run : Outcome AnalyzeOperationResult * History) prefix name call =>
    run = (rejection (resultResponse (client this) (h ++ [SpanStart (spanName prefix name)]) call),
           h ++ [SpanStart (spanName prefix name); Net call; SpanEnd (spanName prefix name)]) /\
    netCalls (snd run) = netCalls h ++ [call] in
  (let call := GetAnalyzeLayoutResult resultId (contentResultRequestOptions (Some options)) in
   let run := getRecognizedContent (client this) resultId (Some options) h in
   netCalls (snd run) = netCalls h ++ [call] /\
   fst run =
     match resultResponse (client this)
             (h ++ [SpanStart "FormRecognizerClient-getRecognizedLayoutResult"]) call with
     | inl e => inl e
     | inr analyzeResult => inr (toRecognizeContentResultResponse analyzeResult)
     end) /\
  (let prefix := "FormRecognizerClient-beginRecognizeCustomForms" in
   let call := GetAnalyzeFormResult (Some modelId) resultId
     (formRequestOptions prefix "getCustomForms" options) in
   once (fetchOf (customFormsPoller this modelId form options)) prefix "getCustomForms" call /\
   once (fetchOf (customFormsFromUrlPoller this modelId formUrl options))
     prefix "getCustomForms" call) /\
  (let prefix := "FormRecognizerClient-beginRecognizeBusinessCards" in
   once (fetchOf (businessCardsPoller this form options)) prefix "getBusinessCards"
     (GetAnalyzeBusinessCardResult resultId
        (formRequestOptions prefix "getBusinessCards" options))) /\
  (let prefix := "FormRecognizerClient-beginRecognizeBusinessCardsFromUrl" in
   once (fetchOf (businessCardsFromUrlPoller this formUrl options)) prefix "getBusinessCards"
     (GetAnalyzeBusinessCardResult resultId
        (formRequestOptions prefix "getBusinessCards" (withContentType None options)))) /\
  (let prefix := "FormRecognizerClient-beginRecognizeReceipts" in
   once (fetchOf (receiptsPoller this form options)) prefix "getReceipts"
     (GetAnalyzeReceiptResult resultId
        (formRequestOptions prefix "getReceipts" options))) /\
  (let prefix := "FormRecognizerClient-beginRecognizeReceiptsFromUrl" in
   once (fetchOf (receiptsFromUrlPoller this formUrl options)) prefix "getReceipts"
     (GetAnalyzeReceiptResult resultId
        (formRequestOptions prefix "getReceipts" (withContentType None options)))).
Proof.
  cbv zeta.
  unfold contentResultRequestOptions, formRequestOptions, updatedOptions, spanName.
  repeat split; unfold_client; simpl;
    split_cases; history_simpl; rewrite <- ?app_assoc; try reflexivity; congruence.
Qed.

(* ===================================================================== *)
(** ** The model identifier of a fetch *)
(* ===================================================================== *)

(** C4. The [getResult] of both custom-form methods calls the service
    with the model identifier it is handed, whatever identifier the method
    itself was called with; the poller hands it the identifier it was
    constructed with, whether it starts fresh or resumes. *)
Theorem getResult_uses_current_modelId (this : FormRecognizerClient)
    (modelId0 modelId0' : string) (form : list Byte.byte) (formUrl : string)
    (options : OperationOptions) (resultId : string) (modelId : option string)
    (serialized : option string) (h : History) :
  let prefix := "FormRecognizerClient-beginRecognizeCustomForms" in
  let n := spanName prefix "getCustomForms" in
  let call := fun id => GetAnalyzeFormResult id resultId
    (formRequestOptions prefix "getCustomForms" options) in
  let h0 := h ++ [SpanStart n] in
  (* the call is made with the parameter *)
  (p <- getResult (customFormsPoller this modelId0 form options) (resultId, modelId) ;;
   await p) h
  = (rejection (resultResponse (client this) h0 (call modelId)),
     h0 ++ [Net (call modelId); SpanEnd n]) /\
  (p <- getResult (customFormsFromUrlPoller this modelId0 formUrl options) (resultId, modelId) ;;
   await p) h
  = (rejection (resultResponse (client this) h0 (call modelId)),
     h0 ++ [Net (call modelId); SpanEnd n]) /\
  (* the identifier of the method plays no part *)
  getResult (customFormsPoller this modelId0 form options)
  = getResult (customFormsPoller this modelId0' form options) /\
  getResult (customFormsFromUrlPoller this modelId0 formUrl options)
  = getResult (customFormsFromUrlPoller this modelId0' formUrl options) /\
  (* fresh or resumed, the poller passes on the identifier of its construction *)
  (let resumable := withResumeFrom serialized options in
   let call' := GetAnalyzeFormResult (Some modelId0) resultId
     (formRequestOptions prefix "getCustomForms" resumable) in
   fetch (operation (FormRecognitionPoller (customFormsPoller this modelId0 form resumable)))
     resultId h
   = (rejection (resultResponse (client this) h0 call'), h0 ++ [Net call'; SpanEnd n]) /\
   fetch (operation (FormRecognitionPoller (customFormsFromUrlPoller this modelId0 formUrl resumable)))
     resultId h
   = (rejection (resultResponse (client this) h0 call'), h0 ++ [Net call'; SpanEnd n])).
Proof.
  cbv zeta. unfold formRequestOptions, updatedOptions, spanName.
  repeat split; try reflexivity;
    unfold_client; simpl; split_cases; rewrite <- ?app_assoc; reflexivity.
Qed.

(* ===================================================================== *)
(** ** The content type of a document *)
(* ===================================================================== *)

(** C3. For a document given as bytes, a content type the caller names is
    the content type of the request and no bytes are inspected; without
    one the bytes are inspected once and the request follows what was
    detected. This holds for [recognizeLayoutInternal], which is handed
    the content type, and for the [createOperation] of the three form
    methods, which read it from the options. *)
Theorem explicit_contentType_wins (this : FormRecognizerClient) (data : list Byte.byte)
    (c : FormContentType) (options : OperationOptions) (modelId : string) (h : History) :
  let explicit := withContentType (Some c) options in
  let omitted := withContentType None options in
  let initiateOf := fun o => initiate (operation (FormRecognitionPoller o)) in
  (* recognizeLayoutInternal *)
  (let run := recognizeLayoutInternal (client this) (Document data) (Some c) (Some options) None h in
   sniffed (snd run) = sniffed h /\
   netCalls (snd run) = netCalls h ++
     [AnalyzeLayoutAsync (Some (contentTypeString c))
        (WithBody (Binary data) (layoutRequestOptions (Some options)))]) /\
  (let run := recognizeLayoutInternal (client this) (Document data) None (Some options) None h in
   sniffed (snd run) = sniffed h ++ [data] /\
   netCalls (snd run) = netCalls h ++
     match sniff data with
     | inl _ => []
     | inr (Some c') =>
         [AnalyzeLayoutAsync (Some (contentTypeString c'))
            (WithBody (Binary data) (layoutRequestOptions (Some options)))]
     | inr None =>
         [AnalyzeLayoutAsync (Some application_json)
            (WithFileStream (Binary data) (layoutRequestOptions (Some options)))]
     end) /\
  (* beginRecognizeCustomForms *)
  (let prefix := "FormRecognizerClient-beginRecognizeCustomForms" in
   let call := fun o c' => AnalyzeWithCustomModel modelId (option_map contentTypeString c')
     (WithBody (Binary data) (formRequestOptions prefix "customFormsInternal" o)) in
   let run := initiateOf (customFormsPoller this modelId data explicit) h in
   let run' := initiateOf (customFormsPoller this modelId data omitted) h in
   sniffed (snd run) = sniffed h /\
   netCalls (snd run) = netCalls h ++ [call explicit (Some c)] /\
   sniffed (snd run') = sniffed h ++ [data] /\
   netCalls (snd run') = netCalls h ++
     match sniff data with inl _ => [] | inr c' => [call omitted c'] end) /\
  (* beginRecognizeBusinessCards *)
  (let prefix := "FormRecognizerClient-beginRecognizeBusinessCards" in
   let call := fun o c' => AnalyzeBusinessCardAsync (option_map contentTypeString c')
     (WithBody (Binary data) (formRequestOptions prefix "businessCardsInternal" o)) in
   let run := initiateOf (businessCardsPoller this data explicit) h in
   let run' := initiateOf (businessCardsPoller this data omitted) h in
   sniffed (snd run) = sniffed h /\
   netCalls (snd run) = netCalls h ++ [call explicit (Some c)] /\
   sniffed (snd run') = sniffed h ++ [data] /\
   netCalls (snd run') = netCalls h ++
     match sniff data with inl _ => [] | inr c' => [call omitted c'] end) /\
  (* beginRecognizeReceipts *)
  (let prefix := "FormRecognizerClient-beginRecognizeReceipts" in
   let call := fun o c' => AnalyzeReceiptAsync (option_map contentTypeString c')
     (WithBody (Binary data) (formRequestOptions prefix "receiptsInternal" o)) in
   let run := initiateOf (receiptsPoller this data explicit) h in
   let run' := initiateOf (receiptsPoller this data omitted) h in
   sniffed (snd run) = sniffed h /\
   netCalls (snd run) = netCalls h ++ [call explicit (Some c)] /\
   sniffed (snd run') = sniffed h ++ [data] /\
   netCalls (snd run') = netCalls h ++
     match sniff data with inl _ => [] | inr c' => [call omitted c'] end).
Proof.
  cbv zeta.
  unfold layoutRequestOptions, formRequestOptions, updatedOptions, spanName.
  repeat split; unfold_client; simpl;
    split_cases; history_simpl; reflexivity.
Qed.

(* ===================================================================== *)
(** ** Initiation without an operation location *)
(* ===================================================================== *)

Ltac absent_step Hresp Hsniff :=
  match goal with
  | |- context [startResponse ?c ?hh ?call] =>
      let r := fresh "r" in
      let Hf := fresh "Hf" in
      destruct (Hresp hh call) as (r & -> & Hf);
      rewrite ?(processOperationLocation_absent r Hf)
  | |- context [sniff _] =>
      let ct := fresh "ct" in
      let Hct := fresh "Hct" in
      let H := fresh "H" in
      pose proof Hsniff as H; destruct H as (ct & Hct); rewrite Hct; clear Hct
  | |- context [match contentType ?o with _ => _ end] => destruct (contentType o) eqn:?
  end; simpl.

(** C1. An absent operation location, undefined or empty, makes
    [processOperationLocation] throw; a present one gives the part after
    its last ['/']. When the service answers initiation without the field,
    every form method rejects with that error and no result has been
    fetched. *)
Theorem operationLocation_absent_or_handle
    (r : RemoteOperation) (loc pre suf : string)
    (this : FormRecognizerClient) (modelId formUrl : string) (form : list Byte.byte)
    (options : OperationOptions) (h : History) :
  falsy (operationLocation r) = true ->
  JsString.contains slash suf = false ->
  resumeFrom options = None ->
  falsyString modelId = false ->
  (forall h' call, exists r',
     startResponse (client this) h' call = inr r' /\ falsy (operationLocation r') = true) ->
  (exists c, sniff form = inr c) ->
  let rejected := fun A (run : Outcome A * History) =>
    fst run = inl missingOperationLocation /\ fetchCalls (snd run) = fetchCalls h in
  processOperationLocation r = inl missingOperationLocation /\
  processOperationLocation {| operationLocation := Some loc |}
  = (if falsyString loc then inl missingOperationLocation
     else inr (JsString.substring loc (JsString.lastIndexOf loc slash + 1))) /\
  processOperationLocation {| operationLocation := Some (pre ++ String slash suf)%string |}
  = inr suf /\
  rejected _ (beginRecognizeCustomForms this modelId form options h) /\
  rejected _ (beginRecognizeCustomFormsFromUrl this modelId formUrl options h) /\
  rejected _ (beginRecognizeBusinessCards this form options h) /\
  rejected _ (beginRecognizeBusinessCardsFromUrl this formUrl options h) /\
  rejected _ (beginRecognizeReceipts this form options h) /\
  rejected _ (beginRecognizeReceiptsFromUrl this formUrl options h).
Proof.
  intros Hr Hsuf Hfresh Hid Hresp Hsniff. cbv zeta.
  split; [now apply processOperationLocation_absent|].
  split; [now destruct loc|].
  split.
  { rewrite processOperationLocation_present.
    - now rewrite substring_after_last_slash.
    - destruct pre; reflexivity. }
  clear r Hr.
  repeat split; unfold_client; simpl; rewrite ?Hfresh, ?Hid; simpl;
    repeat absent_step Hresp Hsniff;
    unfold fetchCalls; history_simpl; rewrite ?filter_app; simpl;
    rewrite ?app_nil_r; reflexivity.
Qed.

(* ===================================================================== *)
(** ** An operation found complete by the first status check *)
(* ===================================================================== *)

Lemma poll_terminal {R} (op : PollerOperation R) (st : PollOperationState R) (h : History) :
  terminal (stateStatus st) = true -> poll op st h = ((inr tt, st), h).
Proof. intros H. unfold poll. now rewrite H. Qed.

Lemma pollTimes_terminal {R} (op : PollerOperation R) (st : PollOperationState R)
    (h : History) (n : nat) :
  terminal (stateStatus st) = true -> pollTimes n op st h = ((inr tt, st), h).
Proof.
  intros H. induction n as [|n IH]; simpl; [reflexivity|].
  now rewrite poll_terminal.
Qed.

(** C5. A poller that has made no status check yet and whose first fetch
    reports a terminal status resolves its poll without calling
    [onProgress]: the history it leaves is the one the fetch left, with no
    progress event added. Every later poll does nothing, so the callback
    is never called. *)
Theorem no_progress_when_complete_at_first_check {R : Type} (op : PollerOperation R)
    (st : PollOperationState R) (h h1 h2 : History) (handle : string) (response : R) :
  terminal (stateStatus st) = false ->
  firstCheck st = true ->
  acquireHandle op st h = (inr handle, h1) ->
  fetch op handle h1 = (inr response, h2) ->
  terminal (statusOf op response) = true ->
  exists st',
    poll op st h = ((inr tt, st'), h2) /\
    stateStatus st' = statusOf op response /\
    isCompleted st' = true /\
    forall n : nat,
      pollTimes n op st' h2 = ((inr tt, st'), h2) /\
      progressCalls (snd (pollTimes n op st' h2)) = progressCalls h2.
Proof.
  intros Hrun Hfirst Hacq Hfetch Hterm.
  unfold poll. rewrite Hrun, Hacq, Hfetch. cbv zeta. rewrite Hfirst, Hterm. simpl.
  rewrite andb_false_r.
  eexists. split; [reflexivity|]. simpl.
  repeat split.
  - now apply pollTimes_terminal.
  - now rewrite pollTimes_terminal.
Qed.

(* ===================================================================== *)
(** ** More about the handle *)
(* ===================================================================== *)

Lemma contains_append c pre suf :
  JsString.contains c (pre ++ suf)%string
  = JsString.contains c pre || JsString.contains c suf.
Proof.
  induction pre as [|a pre IH]; simpl; [reflexivity|].
  now rewrite IH, orb_assoc.
Qed.

(** A string that has [c] splits at the last one. *)
Lemma last_occurrence c s :
  JsString.contains c s = true ->
  exists pre suf, s = (pre ++ String c suf)%string /\ JsString.contains c suf = false.
Proof.
  induction s as [|a s IH]; simpl; [discriminate|].
  destruct (JsString.contains c s) eqn:Hs.
  - intros _. destruct (IH eq_refl) as (pre & suf & -> & Hsuf).
    exists (String a pre), suf. split; [reflexivity|assumption].
  - rewrite orb_false_r. intros Ha. apply Ascii.eqb_eq in Ha. subst a.
    exists EmptyString, s. split; [reflexivity|assumption].
Qed.

(** The handle of a present location, with what it is in the location. *)
Lemma handle_of_present loc :
  falsyString loc = false ->
  exists handle,
    processOperationLocation {| operationLocation := Some loc |} = inr handle /\
    JsString.contains slash handle = false /\
    (loc = handle \/ exists pre, loc = (pre ++ String slash handle)%string).
Proof.
  intros Hne. destruct (JsString.contains slash loc) eqn:Hc.
  - destruct (last_occurrence slash loc Hc) as (pre & suf & -> & Hsuf).
    exists suf. rewrite processOperationLocation_present by assumption.
    rewrite substring_after_last_slash by assumption.
    split; [reflexivity|]. split; [assumption|]. right. now exists pre.
  - exists loc. rewrite processOperationLocation_present by assumption.
    unfold JsString.lastIndexOf. rewrite lastIndexOf_from_absent by assumption.
    simpl. rewrite substring_zero.
    split; [reflexivity|]. split; [assumption|]. now left.
Qed.

(** X1. The handle of a present operation location never holds a ['/'],
    and it is the tail of the location: the whole of it, or what follows
    one of its ['/']. No present location is rejected. *)
Theorem handle_is_separator_free_tail (loc : string) :
  falsyString loc = false ->
  exists handle,
    processOperationLocation {| operationLocation := Some loc |} = inr handle /\
    JsString.contains slash handle = false /\
    (loc = handle \/ exists pre, loc = (pre ++ String slash handle)%string).
Proof. exact (handle_of_present loc). Qed.

(** X2. Extraction settles after one step: a handle that came out of
    [processOperationLocation] and is not empty is its own handle. *)
Theorem handle_of_handle (loc handle : string) :
  processOperationLocation {| operationLocation := Some loc |} = inr handle ->
  falsyString handle = false ->
  processOperationLocation {| operationLocation := Some handle |} = inr handle.
Proof.
  intros Hloc Hne.
  assert (Hlocne : falsyString loc = false).
  { destruct loc; [discriminate Hloc|reflexivity]. }
  destruct (handle_of_present loc Hlocne) as (handle' & Heq & Hfree & _).
  rewrite Hloc in Heq. injection Heq as <-.
  rewrite processOperationLocation_present by assumption.
  unfold JsString.lastIndexOf. rewrite lastIndexOf_from_absent by assumption.
  simpl. now rewrite substring_zero.
Qed.

(* ===================================================================== *)
(** ** More about the constructor *)
(* ===================================================================== *)

Lemma constructor_userAgent credential options :
  userAgentOptions (pipelineOptions (constructorPipeline credential options))
  = Some (addLibInfo match userAgentOptions options with
                     | Some u => u
                     | None => {| userAgentPrefix := None |}
                     end).
Proof. reflexivity. Qed.

Lemma addLibInfo_prefix first :
  addLibInfo {| userAgentPrefix := Some first |}
  = {| userAgentPrefix :=
         Some (if falsyString first then libInfo else first ++ " " ++ libInfo)%string |}.
Proof. destruct first; reflexivity. Qed.

Lemma addLibInfo_absent :
  addLibInfo {| userAgentPrefix := None |} = {| userAgentPrefix := Some libInfo |}.
Proof. reflexivity. Qed.

Lemma string_app_assoc (a b c : string) : ((a ++ b) ++ c = a ++ (b ++ c))%string.
Proof. induction a as [|x a IH]; simpl; [reflexivity|now rewrite IH]. Qed.

(** X3. Whatever the caller's options, the user agent prefix of the
    pipeline ends in the library's identifier; a non-empty prefix of the
    caller stands before it, followed by one space, and nothing else does.
    The logging options are always the client's own, and the remaining
    options are the caller's. *)
Theorem constructor_pipeline_options (credential : Credential) (options : PipelineOptions) :
  let internal := pipelineOptions (constructorPipeline credential options) in
  let given :=
    match userAgentOptions options with
    | Some u => userAgentPrefix u
    | None => None
    end in
  (exists front,
     userAgentOptions internal = Some {| userAgentPrefix := Some (front ++ libInfo)%string |} /\
     (if falsy given then front = EmptyString
      else exists prefix, given = Some prefix /\ front = (prefix ++ " ")%string)) /\
  loggingOptions internal = Some formRecognizerLoggingOptions /\
  otherOptions internal = otherOptions options.
Proof.
  cbv zeta. split; [|split; reflexivity].
  rewrite constructor_userAgent.
  destruct (userAgentOptions options) as [[[prefix|]]|].
  - rewrite addLibInfo_prefix. cbn [userAgentPrefix falsy].
    destruct prefix as [|a prefix]; cbn [falsyString falsy].
    + exists EmptyString. split; reflexivity.
    + exists (String a prefix ++ " ")%string. split.
      * now rewrite string_app_assoc.
      * eexists. split; reflexivity.
  - rewrite addLibInfo_absent. exists EmptyString. split; reflexivity.
  - rewrite addLibInfo_absent. exists EmptyString. split; reflexivity.
Qed.

(** X4. The constructor changes the caller's options: a
    [userAgentOptions] object that was handed in carries the new prefix
    afterwards, so a second client made from the same options receives the
    identifier twice. *)
Theorem constructor_reuses_userAgentOptions (credential credential' : Credential)
    (options : PipelineOptions) (u : UserAgentOptions) :
  userAgentOptions options = Some u ->
  let prefixOf := fun o =>
    userAgentOptions (pipelineOptions (constructorPipeline credential' o)) in
  exists first,
    userAgentOptions (pipelineOptions (constructorPipeline credential options))
    = Some {| userAgentPrefix := Some first |} /\
    userAgentOptions (optionsAfterConstructor options)
    = Some {| userAgentPrefix := Some first |} /\
    prefixOf (optionsAfterConstructor options)
    = Some {| userAgentPrefix := Some (first ++ " " ++ libInfo)%string |} /\
    prefixOf (optionsAfterConstructor options) <> prefixOf options.
Proof.
  intros Hu. cbv zeta. rewrite !constructor_userAgent.
  unfold optionsAfterConstructor. rewrite Hu. cbn [userAgentOptions].
  assert (Hfirst : exists first, addLibInfo u = {| userAgentPrefix := Some first |}
                                 /\ falsyString first = false).
  { destruct u as [[prefix|]].
    - rewrite addLibInfo_prefix. eexists. split; [reflexivity|].
      destruct prefix; reflexivity.
    - rewrite addLibInfo_absent. eexists. split; reflexivity. }
  destruct Hfirst as (first & Hfirst & Hne).
  exists first. rewrite Hfirst, addLibInfo_prefix, Hne.
  repeat split. intros Heq. injection Heq as Heq.
  apply (f_equal String.length) in Heq.
  rewrite !append_length in Heq. simpl in Heq. lia.
Qed.

(* ===================================================================== *)
(** ** More about the URL methods *)
(* ===================================================================== *)

Lemma warnings_app h1 h2 : warnings (h1 ++ h2) = warnings h1 ++ warnings h2.
Proof.
  induction h1 as [|e h1 IH]; simpl; [reflexivity|].
  destruct e; simpl; now rewrite IH.
Qed.

Lemma spanStatuses_app h1 h2 :
  spanStatuses (h1 ++ h2) = spanStatuses h1 ++ spanStatuses h2.
Proof.
  induction h1 as [|e h1 IH]; simpl; [reflexivity|].
  destruct e; simpl; now rewrite IH.
Qed.

Ltac observe_simpl :=
  rewrite <- ?app_assoc;
  rewrite ?netCalls_app, ?sniffed_app, ?warnings_app, ?spanStatuses_app; simpl;
  rewrite ?app_nil_r.

(** X5. For the content, business-card and receipt methods that take a
    URL, a content type in the options changes one thing only: the warning
    is logged first. From there on the method runs as it does without the
    option, to the same outcome and the same events. *)
Theorem url_contentType_only_warns (this : FormRecognizerClient) (formUrl : string)
    (c : FormContentType) (options : OperationOptions) (h : History) :
  let given := withContentType (Some c) options in
  let absent := withContentType None options in
  let warned := h ++ [LogWarning ignoringContentType] in
  beginRecognizeContentFromUrl this formUrl given h
  = beginRecognizeContentFromUrl this formUrl absent warned /\
  beginRecognizeBusinessCardsFromUrl this formUrl given h
  = beginRecognizeBusinessCardsFromUrl this formUrl absent warned /\
  beginRecognizeReceiptsFromUrl this formUrl given h
  = beginRecognizeReceiptsFromUrl this formUrl absent warned.
Proof. cbv zeta. repeat split. Qed.

(** X6. [beginRecognizeCustomFormsFromUrl] never logs a warning, and no
    method that takes a document does, whatever the options. *)
Theorem no_warning_elsewhere (this : FormRecognizerClient) (modelId formUrl : string)
    (form : list Byte.byte) (options : OperationOptions) (h : History) :
  warnings (snd (beginRecognizeCustomFormsFromUrl this modelId formUrl options h))
  = warnings h /\
  warnings (snd (beginRecognizeCustomForms this modelId form options h)) = warnings h /\
  warnings (snd (beginRecognizeBusinessCards this form options h)) = warnings h /\
  warnings (snd (beginRecognizeReceipts this form options h)) = warnings h /\
  warnings (snd (beginRecognizeContent this form options h)) = warnings h.
Proof.
  repeat split; unfold_client; simpl;
    split_cases; observe_simpl; reflexivity.
Qed.

(* ===================================================================== *)
(** ** Spans *)
(* ===================================================================== *)

(** X7. [getRecognizedContent] opens one span, makes its call, and ends
    the span whether the call answers or fails; a failure is first set on
    the span as [UNKNOWN] with the message of the error, an answer sets
    nothing. Without options it runs as with empty options. *)
Theorem getRecognizedContent_span (client : GeneratedClient) (resultId : string)
    (options : option OperationOptions) (h : History) :
  let n := "FormRecognizerClient-getRecognizedLayoutResult"%string in
  let call := GetAnalyzeLayoutResult resultId (contentResultRequestOptions options) in
  let h0 := h ++ [SpanStart n] in
  getRecognizedContent client resultId options h =
  match resultResponse client h0 call with
  | inl e => (inl e, h0 ++ [Net call; SpanSetStatus n UNKNOWN (message e); SpanEnd n])
  | inr analyzeResult =>
      (inr (toRecognizeContentResultResponse analyzeResult), h0 ++ [Net call; SpanEnd n])
  end.
Proof.
  cbv zeta. unfold contentResultRequestOptions. unfold_client. simpl.
  split_cases; rewrite <- ?app_assoc; reflexivity.
Qed.

(** X8. With a content type handed in, or with a URL as the source,
    [recognizeLayoutInternal] opens one span, makes one call and ends the
    span; a failed call is set on the span first. It returns the answer of
    the service as it is, also one without an operation location. *)
Theorem recognizeLayoutInternal_span (client : GeneratedClient) (data : list Byte.byte)
    (formUrl : string) (c : FormContentType) (options : option OperationOptions)
    (modelId : option string) (h : History) :
  let n := "analyzeLayoutInternal"%string in
  let h0 := h ++ [SpanStart n] in
  let finish : Call -> Outcome RemoteOperation * History := fun call =>
    match startResponse client h0 call with
    | inl e => (inl e, h0 ++ [Net call; SpanSetStatus n UNKNOWN (message e); SpanEnd n])
    | inr response => (inr response, h0 ++ [Net call; SpanEnd n])
    end in
  recognizeLayoutInternal client (Document data) (Some c) options modelId h
  = finish (AnalyzeLayoutAsync (Some (contentTypeString c))
              (WithBody (Binary data) (layoutRequestOptions options))) /\
  recognizeLayoutInternal client (Url formUrl) (Some c) options modelId h
  = finish (AnalyzeLayoutAsync (Some (contentTypeString c))
              (WithBody (SourcePath formUrl) (layoutRequestOptions options))) /\
  recognizeLayoutInternal client (Url formUrl) None options modelId h
  = finish (AnalyzeLayoutAsync (Some application_json)
              (WithFileStream (SourcePath formUrl) (layoutRequestOptions options))).
Proof.
  cbv zeta. unfold layoutRequestOptions. unfold_client. simpl.
  repeat split; split_cases; rewrite <- ?app_assoc; reflexivity.
Qed.

(** X9. When the content type has to be detected and detection throws,
    no call of the generated client is made and the error is the outcome.
    [recognizeLayoutInternal] detects before its [try]: the span it opened
    is never ended. The form methods detect inside the returned promise,
    after their span has ended. *)
Theorem detection_failure_prevents_request (this : FormRecognizerClient)
    (data : list Byte.byte) (modelId : string) (options : OperationOptions)
    (e : Thrown) (h : History) :
  sniff data = inl e ->
  let omitted := withContentType None options in
  let initiateOf := fun o => initiate (operation (FormRecognitionPoller o)) in
  let after := fun prefix name =>
    h ++ [SpanStart (spanName prefix name); SpanEnd (spanName prefix name); Sniff data] in
  recognizeLayoutInternal (client this) (Document data) None (Some options) None h
  = (inl e, h ++ [SpanStart "analyzeLayoutInternal"; Sniff data]) /\
  initiateOf (customFormsPoller this modelId data omitted) h
  = (inl e, after "FormRecognizerClient-beginRecognizeCustomForms" "customFormsInternal") /\
  initiateOf (businessCardsPoller this data omitted) h
  = (inl e, after "FormRecognizerClient-beginRecognizeBusinessCards" "businessCardsInternal") /\
  initiateOf (receiptsPoller this data omitted) h
  = (inl e, after "FormRecognizerClient-beginRecognizeReceipts" "receiptsInternal").
Proof.
  intros Hsniff. cbv zeta. unfold spanName. unfold_client. simpl.
  rewrite Hsniff. simpl. rewrite <- ?app_assoc. repeat split.
Qed.

(** X10. No failure of a form method is set on a span: the handlers
    given to [span] are [async], so they return a promise and never throw
    into the [catch] of the wrapper. Initiation and fetch of every form
    poller leave the statuses of the spans as they were. *)
Theorem form_spans_record_no_failure (this : FormRecognizerClient) (modelId formUrl : string)
    (form : list Byte.byte) (options : OperationOptions) (handle : string) (h : History) :
  let quiet := fun o =>
    spanStatuses (snd (initiate (operation (FormRecognitionPoller o)) h)) = spanStatuses h /\
    spanStatuses (snd (fetch (operation (FormRecognitionPoller o)) handle h))
    = spanStatuses h in
  quiet (customFormsPoller this modelId form options) /\
  quiet (customFormsFromUrlPoller this modelId formUrl options) /\
  quiet (businessCardsPoller this form options) /\
  quiet (businessCardsFromUrlPoller this formUrl options) /\
  quiet (receiptsPoller this form options) /\
  quiet (receiptsFromUrlPoller this formUrl options).
Proof.
  cbv zeta. repeat split; unfold_client; simpl;
    split_cases; observe_simpl; reflexivity.
Qed.

(** X11. The handle is not checked: when the service answers with a
    location that ends in ['/'], initiation of the URL form methods
    resolves with the empty handle. *)
Theorem trailing_separator_gives_empty_handle (this : FormRecognizerClient)
    (modelId formUrl pre : string) (options : OperationOptions) (h : History) :
  (forall h' call,
     startResponse (client this) h' call
     = inr {| operationLocation := Some (pre ++ String slash EmptyString)%string |}) ->
  let initiateOf := fun o => initiate (operation (FormRecognitionPoller o)) in
  processOperationLocation
    {| operationLocation := Some (pre ++ String slash EmptyString)%string |}
  = inr EmptyString /\
  fst (initiateOf (customFormsFromUrlPoller this modelId formUrl options) h)
  = inr EmptyString /\
  fst (initiateOf (businessCardsFromUrlPoller this formUrl options) h) = inr EmptyString /\
  fst (initiateOf (receiptsFromUrlPoller this formUrl options) h) = inr EmptyString.
Proof.
  intros Hresp. cbv zeta.
  assert (Hempty : processOperationLocation
            {| operationLocation := Some (pre ++ String slash EmptyString)%string |}
          = inr EmptyString).
  { rewrite processOperationLocation_present by (destruct pre; reflexivity).
    now rewrite substring_after_last_slash. }
  split; [exact Hempty|].
  repeat split; unfold_client; simpl; rewrite Hresp; simpl; exact Hempty.
Qed.

End Client.

(* ===================================================================== *)
(** ** A concrete service *)
(* ===================================================================== *)

(** The client at concrete imports: request options that keep the content
    type and [includeTextDetails] of the options, a tracer that leaves the
    tracing options alone, a detector that knows the PDF magic number, and
    services with fixed answers. *)
Module Demo.

Definition RequestOptions : Type := (option FormContentType * option bool)%type.

Definition toRequestOptions (o : OperationOptions unit) : RequestOptions :=
  (contentType unit o, includeTextDetails unit o).

Definition keepTracing (name : string) (t : option unit) : option unit := t.

Definition sniff (data : list Byte.byte) : Outcome (option FormContentType) :=
  match data with
  | Byte.x25 :: Byte.x50 :: Byte.x44 :: Byte.x46 :: _ => inr (Some application_pdf)
  | _ => inl (mkError RangeError "content type could not be detected")
  end.

Definition toPages (r : AnalyzeOperationResult nat) : RecognizeContentResultResponse nat :=
  {| contentStatus := status nat r; pages := analyzeResult nat r |}.

Definition deserialize (s : string) : SerializedPollerState :=
  {| serializedHandle := Some s; serializedStatus := running |}.

Definition location : string :=
  "https://example.cognitiveservices.azure.com/formrecognizer/v2.1/layout/analyzeResults/abc123".

(** A service whose operations are complete when first asked. *)
Definition promptService : GeneratedClient RequestOptions nat :=
  {| startResponse := fun _ _ => inr {| operationLocation := Some location |};
     resultResponse := fun _ _ => inr {| status := succeeded; analyzeResult := Some 1%nat |} |}.

(** A service that answers initiation without an operation location. *)
Definition silentService : GeneratedClient RequestOptions nat :=
  {| startResponse := fun _ _ => inr {| operationLocation := None |};
     resultResponse := fun _ _ => inr {| status := succeeded; analyzeResult := Some 1%nat |} |}.

(** A service whose operations run at the first fetch and have succeeded
    at every later one. *)
Definition slowService : GeneratedClient RequestOptions nat :=
  {| startResponse := fun _ _ => inr {| operationLocation := Some location |};
     resultResponse := fun h _ =>
       match fetchCalls RequestOptions h with
       | [] => inr {| status := running; analyzeResult := None |}
       | _ :: _ => inr {| status := succeeded; analyzeResult := Some 1%nat |}
       end |}.

Definition clientOf (service : GeneratedClient RequestOptions nat)
    : FormRecognizerClient RequestOptions nat :=
  {| endpointUrl := "https://example.cognitiveservices.azure.com"; client := service |}.

(** Options with a content type and a callback that accepts every status. *)
Definition options : OperationOptions unit :=
  {| contentType := Some image_png; includeFieldElements := Some true;
     includeTextDetails := None; locale := None; updateIntervalInMs := None;
     onProgress := Some (fun _ => inr tt); resumeFrom := None; tracingOptions := None |}.

Definition pdf : list Byte.byte := [Byte.x25; Byte.x50; Byte.x44; Byte.x46; Byte.x2d].

Definition beginContent service form o :=
  beginRecognizeContent RequestOptions unit nat nat toRequestOptions keepTracing sniff
    toPages deserialize (clientOf service) form o.


Definition beginCustomForms service modelId form o :=
  beginRecognizeCustomForms RequestOptions unit nat toRequestOptions keepTracing sniff
    deserialize (clientOf service) modelId form o.

(** The poller [beginRecognizeContent] constructs. *)
Definition contentPoller service form o :=
  BeginRecognizeContentPoller RequestOptions unit nat deserialize
    {| pollerClient :=
         contentPollerClient RequestOptions unit nat nat toRequestOptions keepTracing sniff
           toPages (clientOf service);
       source := Document form;
       contentOptions := o |}.

End Demo.

(** The handle of a full operation location. *)
Example handle_of_location :
  processOperationLocation {| operationLocation := Some Demo.location |} = inr "abc123"%string.
Proof. reflexivity. Qed.

(** An operation complete at the first fetch: the callback is registered
    and is not called. *)
Example prompt_operation_no_progress :
  progressCalls _ (snd (Demo.beginContent Demo.promptService Demo.pdf Demo.options [])) = [].
Proof. reflexivity. Qed.

(** An operation that runs at the first fetch: the callback hears of it,
    and of the success the next poll finds. *)
Example slow_operation_progress :
  let poller := Demo.contentPoller Demo.slowService Demo.pdf Demo.options in
  progressCalls _ (snd (pollTimes _ 3 (operation _ _ poller) (state _ _ poller) []))
  = [running; succeeded].
Proof. reflexivity. Qed.

(** Without a content type in the options the PDF magic number decides. *)
Example pdf_is_detected :
  netCalls _ (snd (Demo.beginCustomForms Demo.promptService "model" Demo.pdf
                     (withContentType unit None Demo.options) []))
  = [AnalyzeWithCustomModel _ "model" (Some "application/pdf"%string)
       (WithBody _ (Binary Demo.pdf) (None, Some true));
     GetAnalyzeFormResult _ (Some "model"%string) "abc123" (None, Some true)].
Proof. reflexivity. Qed.

(* ===================================================================== *)
(** ** The theorems at the concrete service *)
(* ===================================================================== *)

(** A handle that is the whole operation location. *)
Lemma processOperationLocation_no_separator_witness :
  falsyString "abc123" = false /\
  JsString.contains slash "abc123" = false /\
  processOperationLocation {| operationLocation := Some "abc123"%string |} = inr "abc123"%string.
Proof.
  split; [reflexivity|]. split; [reflexivity|].
  exact (proj2 (processOperationLocation_no_separator "abc123" eq_refl eq_refl)).
Defined.




(** Custom forms against the service that sends no operation location. *)
Lemma operationLocation_absent_or_handle_witness :
  falsy (operationLocation {| operationLocation := Some ""%string |}) = true /\
  JsString.contains slash "abc123" = false /\
  resumeFrom unit Demo.options = None /\
  falsyString "model" = false /\
  (forall h' call, exists r',
     startResponse _ _ Demo.silentService h' call = inr r' /\
     falsy (operationLocation r') = true) /\
  (exists c, Demo.sniff Demo.pdf = inr c) /\
  processOperationLocation {| operationLocation := Some ""%string |}
  = inl missingOperationLocation /\
  processOperationLocation {| operationLocation := Some "operations/abc123"%string |}
  = inr "abc123"%string /\
  fst (Demo.beginCustomForms Demo.silentService "model" Demo.pdf Demo.options [])
  = inl missingOperationLocation /\
  fetchCalls _ (snd (Demo.beginCustomForms Demo.silentService "model" Demo.pdf Demo.options []))
  = [].
Proof.
  assert (Hresp : forall (h' : History Demo.RequestOptions) call, exists r',
            startResponse _ _ Demo.silentService h' call = inr r' /\
            falsy (operationLocation r') = true).
  { intros h' call. eexists. split; reflexivity. }
  assert (Hsniff : exists c, Demo.sniff Demo.pdf = inr c).
  { eexists. reflexivity. }
  pose proof
    (operationLocation_absent_or_handle Demo.RequestOptions unit nat Demo.toRequestOptions
       Demo.keepTracing Demo.sniff Demo.deserialize
       {| operationLocation := Some ""%string |} "x" "operations" "abc123"
       (Demo.clientOf Demo.silentService) "model" "https://example.com/form.pdf" Demo.pdf
       Demo.options [] eq_refl eq_refl eq_refl eq_refl Hresp Hsniff)
    as (Habsent & _ & Hhandle & (Hrejected & Hfetch) & _).
  repeat split; try reflexivity; assumption.
Defined.

(** Content recognition against the service that is complete at once: no
    number of polls calls the callback. *)
Lemma no_progress_when_complete_at_first_check_witness :
  let poller := Demo.contentPoller Demo.promptService Demo.pdf Demo.options in
  terminal (stateStatus _ (state _ _ poller)) = false /\
  firstCheck (state _ _ poller) = true /\
  forall n : nat,
    progressCalls _ (snd (pollTimes _ (S n) (operation _ _ poller) (state _ _ poller) [])) = [].
Proof.
  cbv zeta. split; [reflexivity|]. split; [reflexivity|]. intros n.
  destruct
    (no_progress_when_complete_at_first_check Demo.RequestOptions
       (operation _ _ (Demo.contentPoller Demo.promptService Demo.pdf Demo.options))
       (state _ _ (Demo.contentPoller Demo.promptService Demo.pdf Demo.options))
       [] _ _ "abc123" {| contentStatus := succeeded; pages := Some 1%nat |}
       eq_refl eq_refl eq_refl eq_refl eq_refl)
    as (st' & Hpoll & _ & _ & Hlater).
  change (pollTimes _ (S n) ?op ?st []) with
    (match poll _ op st [] with
     | ((inl e, st''), h') => ((inl e, st''), h')
     | ((inr _, st''), h') => pollTimes _ n op st'' h'
     end).
  rewrite Hpoll. destruct (Hlater n) as [_ ->]. reflexivity.
Defined.

(* ===================================================================== *)
(** ** Further properties at the concrete service *)
(* ===================================================================== *)

Module DemoMore.

(** A service whose operation location ends in the separator. *)
Definition trailingService : GeneratedClient Demo.RequestOptions nat :=
  {| startResponse := fun _ _ =>
       inr {| operationLocation :=
                Some ("https://example.com/analyzeResults" ++ String slash EmptyString)%string |};
     resultResponse := fun _ _ => inr {| status := succeeded; analyzeResult := Some 1%nat |} |}.

(** Bytes the detector does not know. *)
Definition unknownBytes : list Byte.byte := [Byte.x00; Byte.x01].

Definition undetected : JsError := mkError RangeError "content type could not be detected".

(** Options of a caller who names the application. *)
Definition callerOptions : PipelineOptions unit unit :=
  {| userAgentOptions := Some {| userAgentPrefix := Some "my-app/1.0"%string |};
     loggingOptions := None;
     otherOptions := tt |}.

Definition pipelineOf (credential : unit + string) (options : PipelineOptions unit unit) :=
  constructorPipeline "3.1.0" "https://cognitiveservices.azure.com/.default"
    unit string unit unit tt credential options.

End DemoMore.

(** The handle of the demo location has no separator. *)
Lemma handle_is_separator_free_tail_witness :
  falsyString Demo.location = false /\
  exists handle,
    processOperationLocation {| operationLocation := Some Demo.location |} = inr handle /\
    JsString.contains slash handle = false.
Proof.
  split; [reflexivity|].
  destruct (handle_is_separator_free_tail Demo.location eq_refl) as (handle & H1 & H2 & _).
  exists handle. split; assumption.
Defined.

(** The handle of the demo location is its own handle. *)
Lemma handle_of_handle_witness :
  processOperationLocation {| operationLocation := Some Demo.location |} = inr "abc123"%string /\
  falsyString "abc123" = false /\
  processOperationLocation {| operationLocation := Some "abc123"%string |} = inr "abc123"%string.
Proof.
  split; [reflexivity|]. split; [reflexivity|].
  exact (handle_of_handle Demo.location "abc123" eq_refl eq_refl).
Defined.

(** Two clients from one options object: the second prefix names the
    library twice. *)
Lemma constructor_reuses_userAgentOptions_witness :
  userAgentOptions _ _ DemoMore.callerOptions
  = Some {| userAgentPrefix := Some "my-app/1.0"%string |} /\
  userAgentOptions _ _
    (pipelineOptions _ _ _ _
       (DemoMore.pipelineOf (inl tt)
          (optionsAfterConstructor "3.1.0" unit unit DemoMore.callerOptions)))
  = Some {| userAgentPrefix :=
              Some "my-app/1.0 azsdk-js-ai-formrecognizer/3.1.0 azsdk-js-ai-formrecognizer/3.1.0"%string |}.
Proof.
  split; [reflexivity|].
  destruct
    (constructor_reuses_userAgentOptions "3.1.0"
       "https://cognitiveservices.azure.com/.default" unit string unit unit tt
       (inr "key"%string) (inl tt) DemoMore.callerOptions
       {| userAgentPrefix := Some "my-app/1.0"%string |} eq_refl)
    as (first & Hfirst & _ & Hsecond & _).
  vm_compute in Hfirst. injection Hfirst as <-. exact Hsecond.
Defined.

(** Unknown bytes and no content type: no request is made. *)
Lemma detection_failure_prevents_request_witness :
  Demo.sniff DemoMore.unknownBytes = inl DemoMore.undetected /\
  recognizeLayoutInternal Demo.RequestOptions unit nat Demo.toRequestOptions
    Demo.keepTracing Demo.sniff (client _ _ (Demo.clientOf Demo.promptService))
    (Document DemoMore.unknownBytes) None (Some Demo.options) None []
  = (inl DemoMore.undetected,
     [SpanStart _ "analyzeLayoutInternal"%string; Sniff _ DemoMore.unknownBytes]).
Proof.
  split; [reflexivity|].
  exact (proj1
    (detection_failure_prevents_request Demo.RequestOptions unit nat Demo.toRequestOptions
       Demo.keepTracing Demo.sniff Demo.deserialize (Demo.clientOf Demo.promptService)
       DemoMore.unknownBytes "model" Demo.options DemoMore.undetected [] eq_refl)).
Defined.

(** Custom forms from a URL against the service whose location ends in
    the separator. *)
Lemma trailing_separator_gives_empty_handle_witness :
  (forall h' call,
     startResponse _ _ DemoMore.trailingService h' call
     = inr {| operationLocation :=
                Some ("https://example.com/analyzeResults" ++ String slash EmptyString)%string |}) /\
  fst (initiate _ _
         (operation _ _
            (FormRecognitionPoller Demo.RequestOptions unit nat Demo.deserialize
               (customFormsFromUrlPoller Demo.RequestOptions unit nat Demo.toRequestOptions
                  Demo.keepTracing (Demo.clientOf DemoMore.trailingService)
                  "model" "https://example.com/form.pdf" Demo.options))) [])
  = inr EmptyString.
Proof.
  split; [reflexivity|].
  exact (proj1 (proj2
    (trailing_separator_gives_empty_handle Demo.RequestOptions unit nat Demo.toRequestOptions
       Demo.keepTracing Demo.deserialize (Demo.clientOf DemoMore.trailingService)
       "model" "https://example.com/form.pdf" "https://example.com/analyzeResults"
       Demo.options [] (fun _ _ => eq_refl)))).
Defined.
